(** * Cycle-flow aggregation: [calculate_cycle_flow_data]

    A shallow embedding of
    [jira_agile_metrics/calculators/cycleflow.py].  The function is a
    straight pipeline of pandas calls; every call it makes is given here as
    a function on an explicit representation of a data frame, and the
    pipeline is written in the order of the source. *)

From Stdlib Require Import ZArith QArith List String Bool Lia Sorted.
Import ListNotations.
Open Scope Z_scope.

(** ** Exceptions *)

Inductive exception : Type :=
| KeyError (labels : list string)   (* labels not found in the columns *)
| TypeError                         (* operation on a cell of the wrong kind *)
| ValueError.                       (* ill-formed argument *)

Inductive result (A : Type) : Type :=
| Ok (a : A)
| Raise (e : exception).
Arguments Ok {A} a.
Arguments Raise {A} e.

Definition bind {A B} (c : result A) (k : A -> result B) : result B :=
  match c with
  | Ok a => k a
  | Raise e => Raise e
  end.

Notation "x <- c ;; k" := (bind c (fun x => k))
  (at level 61, c at next level, right associativity).

Fixpoint mapM {A B} (f : A -> result B) (l : list A) : result (list B) :=
  match l with
  | [] => Ok []
  | a :: r => b <- f a ;; bs <- mapM f r ;; Ok (b :: bs)
  end.

(** ** Cells, series and frames *)

(** Time is counted in nanoseconds, as pandas does: a [Timestamp] is the
    number of nanoseconds since 1970-01-01T00:00, a [Timedelta] a number of
    nanoseconds.  [NA] stands for every missing marker (NaN, NaT, None).
    A [Float] holds the exact quotient of a division. *)
Inductive value : Type :=
| NA
| Timestamp (ns : Z)
| Timedelta (ns : Z)
| Float (x : Q)
| Str (s : string).

Definition Series : Type := list value.

(** The columns of a frame, in order, each with its label.  The labels of
    a frame are pairwise distinct, as they are in the table that the cycle
    time calculator builds; [getitem] below reads the first column that
    carries the label. *)
Definition Frame : Type := list (string * Series).

(** A frame with a datetime index: the result of a resampling. *)
Record DataFrame : Type := mkDataFrame {
  index : list Z;
  columns : Frame
}.

Definition isna (v : value) : bool :=
  match v with NA => true | _ => false end.

Definition value_eqb (a b : value) : bool :=
  match a, b with
  | NA, NA => false                       (* a missing value equals nothing *)
  | Timestamp x, Timestamp y => x =? y
  | Timedelta x, Timedelta y => x =? y
  | Float x, Float y => Qeq_bool x y
  | Str x, Str y => String.eqb x y
  | _, _ => false
  end.

(** [series != v] *)
Definition series_ne (s : Series) (v : value) : list bool :=
  map (fun c => negb (value_eqb c v)) s.

Definition has_column (df : Frame) (l : string) : bool :=
  existsb (fun c => String.eqb (fst c) l) df.

(** [df[l]] *)
Fixpoint getitem (df : Frame) (l : string) : result Series :=
  match df with
  | [] => Raise (KeyError [l])
  | (n, s) :: r => if String.eqb n l then Ok s else getitem r l
  end.

(** [df[[l1, ..., ln]]]: the error names every label that is not a column. *)
Definition getitem_list (df : Frame) (ls : list string) : result Frame :=
  match filter (fun l => negb (has_column df l)) ls with
  | [] => mapM (fun l => s <- getitem df l ;; Ok (l, s)) ls
  | missing => Raise (KeyError missing)
  end.

(** [df.fillna(v)] *)
Definition fillna_series (v : value) (s : Series) : Series :=
  map (fun c => if isna c then v else c) s.

Definition fillna (v : value) (df : Frame) : Frame :=
  map (fun c => (fst c, fillna_series v (snd c))) df.

(** [df[mask]] with a boolean series: the rows where the mask holds. *)
Fixpoint select_mask {A} (mask : list bool) (s : list A) : list A :=
  match mask, s with
  | b :: m, c :: r => if b then c :: select_mask m r else select_mask m r
  | _, _ => []
  end.

Definition getitem_mask (df : Frame) (mask : list bool) : Frame :=
  map (fun c => (fst c, select_mask mask (snd c))) df.

(** [df.empty]: no column, or no row. *)
Definition empty (df : Frame) : bool :=
  match df with
  | [] => true
  | (_, s) :: _ => Nat.eqb (List.length s) 0
  end.

(** ** Resampling *)

(** A frequency assigns to each timestamp the ordinal of the bin it falls
    in, and to each bin ordinal the timestamp that labels the bin.  This
    covers the frequencies whose bins are anchored on the calendar (days,
    weeks, months). *)
Record Frequency : Type := mkFrequency {
  bucket : Z -> Z;
  label : Z -> Z
}.

Fixpoint as_timestamps (s : Series) : result (list Z) :=
  match s with
  | [] => Ok []
  | Timestamp t :: r => ts <- as_timestamps r ;; Ok (t :: ts)
  | _ :: _ => Raise TypeError
  end.

Fixpoint as_timedeltas (s : Series) : result (list Z) :=
  match s with
  | [] => Ok []
  | Timedelta d :: r => ds <- as_timedeltas r ;; Ok (d :: ds)
  | _ :: _ => Raise TypeError
  end.

(** The bins of a resampling run from the bin of the earliest timestamp to
    the bin of the latest one, without gaps. *)
Definition zrange (lo hi : Z) : list Z :=
  map (fun i => lo + Z.of_nat i) (seq 0 (Z.to_nat (hi - lo + 1))).

Definition bins (bs : list Z) : list Z :=
  match bs with
  | [] => []
  | b :: r => zrange (fold_right Z.min b r) (fold_right Z.max b r)
  end.

(** Sum of the durations of the rows that fall in bin [k]. *)
Fixpoint bin_sum (bs ds : list Z) (k : Z) : Z :=
  match bs, ds with
  | b :: bs', d :: ds' => (if b =? k then d else 0) + bin_sum bs' ds' k
  | _, _ => 0
  end.

(** [df.resample(frequency, on=on).agg(np.sum)]: the column [on] becomes the
    index, every other column is summed bin by bin.  A resampling has a bin
    for every period from the first timestamp to the last, also where no
    row falls; the sum of such a bin is the zero duration. *)
Definition resample_sum (frequency : Frequency) (on : string) (df : Frame)
  : result DataFrame :=
  keys <- getitem df on ;;
  ts <- as_timestamps keys ;;
  let bs := map (bucket frequency) ts in
  let ks := bins bs in
  cols <- mapM (fun c =>
                  ds <- as_timedeltas (snd c) ;;
                  Ok (fst c, map (fun k => Timedelta (bin_sum bs ds k)) ks))
               (filter (fun c => negb (String.eqb (fst c) on)) df) ;;
  Ok (mkDataFrame (map (label frequency) ks) cols).

(** ** Conversion to days *)

Definition day_ns : positive := 86400000000000.

(** [x / np.timedelta64(1, 'D')] on one cell. *)
Definition truediv_day (v : value) : result value :=
  match v with
  | Timedelta d => Ok (Float (Qred (d # day_ns)))
  | NA => Ok NA
  | _ => Raise TypeError
  end.

Definition truediv_day_frame (df : Frame) : result Frame :=
  mapM (fun c => s <- mapM truediv_day (snd c) ;; Ok (fst c, s)) df.

(** [df[l] = s]: replaces the column labelled [l], or appends a new one. *)
Fixpoint setitem (df : Frame) (l : string) (s : Series) : Frame :=
  match df with
  | [] => [(l, s)]
  | (n, s') :: r =>
      if String.eqb n l then (n, s) :: r else (n, s') :: setitem r l s
  end.

(** [df[[l1, ..., ln]] = other], column by column. *)
Definition setitem_list (df : Frame) (other : Frame) : Frame :=
  fold_left (fun acc c => setitem acc (fst c) (snd c)) other df.

(** ** Ordering the columns by category *)

Fixpoint nodupb (l : list string) : bool :=
  match l with
  | [] => true
  | a :: r => negb (existsb (String.eqb a) r) && nodupb r
  end.

(** The code of a label: its position among the categories. *)
Fixpoint code (categories : list string) (l : string) : option nat :=
  match categories with
  | [] => None
  | c :: r => if String.eqb c l then Some O
              else option_map S (code r l)
  end.

(** Codes compare by position; a label outside the categories sorts last. *)
Definition code_leb (a b : option nat) : bool :=
  match a, b with
  | Some x, Some y => Nat.leb x y
  | Some _, None => true
  | None, Some _ => false
  | None, None => true
  end.

Fixpoint insert_col (categories : list string) (c : string * Series)
  (l : Frame) : Frame :=
  match l with
  | [] => [c]
  | d :: r =>
      if code_leb (code categories (fst c)) (code categories (fst d))
      then c :: d :: r
      else d :: insert_col categories c r
  end.

(** [df.sort_index(axis=1)] under a categorical column index. *)
Definition sort_index_axis1 (categories : list string) (df : Frame) : Frame :=
  fold_right (insert_col categories) [] df.

(** ** The aggregator

    Sums are taken in unbounded integers: the totals of a chart stay far
    from the 64-bit range of a [Timedelta].  The quotient by one day is the
    exact rational; the floating-point division returns it rounded, and
    returns it as it is when it is a binary fraction such as 1.5.

    The bucketing column is expected to be a column other than the stage
    columns; what pandas does with a label selected twice is not
    represented, and the properties below leave that case out. *)

(** [[f"{cycle} duration" for cycle in cycle_names]] *)
Definition duration_cols (cycle_names : list string) : list string :=
  map (fun cycle => (cycle ++ " duration")%string) cycle_names.

Definition calculate_cycle_flow_data (cycle_data : Frame)
  (cycle_names : list string) (frequency : Frequency) (resample_on : string)
  : result (option DataFrame) :=
  (* Build a dataframe of just the "duration" columns *)
  let duration_cols := duration_cols cycle_names in
  cfd_data <- getitem_list cycle_data (resample_on :: duration_cols) ;;
  (* Zero out missing data *)
  let cfd_data := fillna (Timedelta 0) cfd_data in
  (* Remove issues that lack completion date *)
  keys <- getitem cfd_data resample_on ;;
  let cfd_data := getitem_mask cfd_data (series_ne keys (Timedelta 0)) in
  if empty cfd_data then Ok None
  else
    sampled <- resample_sum frequency resample_on cfd_data ;;
    (* Convert Timedeltas to days *)
    selected <- getitem_list (columns sampled) duration_cols ;;
    days <- truediv_day_frame selected ;;
    let cols := setitem_list (columns sampled) days in
    (* Fill missing values with zero duration *)
    let cols := fillna (Float 0) cols in
    (* Categorical column index, then sort the columns by it *)
    if nodupb duration_cols
    then Ok (Some (mkDataFrame (index sampled)
                               (sort_index_axis1 duration_cols cols)))
    else Raise ValueError.

(** ** The calculator

    [run] takes the names of the configured cycle without its first and
    last entries (backlog and done) and calls the aggregator with its
    default frequency and bucketing column.  The frequency is fixed below,
    with the calendar. *)

Definition active_cycles (cycle : list string) : list string :=
  removelast (tl cycle).

(** [write_chart], lines 45 to 47: nothing is drawn for a table without
    rows. *)
Definition cannot_draw (data : DataFrame) : bool :=
  Nat.eqb (List.length (index data)) 0.

(** ** Calendar frequencies *)

Module Calendar.

(** Days since 1970-01-01 of a date of the proleptic Gregorian calendar. *)
Definition days_from_civil (y m d : Z) : Z :=
  let y' := if m <=? 2 then y - 1 else y in
  let era := y' / 400 in
  let yoe := y' - era * 400 in
  let mp := if m <=? 2 then m + 9 else m - 3 in
  let doy := (153 * mp + 2) / 5 + d - 1 in
  let doe := yoe * 365 + yoe / 4 - yoe / 100 + doy in
  era * 146097 + doe - 719468.

(** Year and month of a day count. *)
Definition civil_from_days (z : Z) : Z * Z :=
  let z := z + 719468 in
  let era := z / 146097 in
  let doe := z - era * 146097 in
  let yoe := (doe - doe / 1460 + doe / 36524 - doe / 146096) / 365 in
  let doy := doe - (365 * yoe + yoe / 4 - yoe / 100) in
  let mp := (5 * doy + 2) / 153 in
  let m := if mp <? 10 then mp + 3 else mp - 9 in
  let y := yoe + era * 400 in
  (if m <=? 2 then y + 1 else y, m).

(** Months are numbered from year 0: month [12 * y + (m - 1)]. *)
Definition month_of (t : Z) : Z :=
  let '(y, m) := civil_from_days (t / Z.pos day_ns) in 12 * y + (m - 1).

Definition first_day_of_month (k : Z) : Z :=
  days_from_civil (k / 12) (k mod 12 + 1) 1.

(** Midnight of the last day of month [k]. *)
Definition month_end (k : Z) : Z :=
  (first_day_of_month (k + 1) - 1) * Z.pos day_ns.

End Calendar.

(** Frequency ["1M"]: calendar months, labelled by the month end. *)
Definition freq_1M : Frequency :=
  mkFrequency Calendar.month_of Calendar.month_end.

(** Frequency ["1W"]: weeks ending on Sunday, labelled by that Sunday.
    1970-01-04 (day 3) is a Sunday. *)
Definition freq_1W : Frequency :=
  mkFrequency (fun t => (t / Z.pos day_ns + 3) / 7)
              (fun k => (7 * k + 3) * Z.pos day_ns).

(** Frequency ["1D"]: calendar days, labelled by their midnight. *)
Definition freq_1D : Frequency :=
  mkFrequency (fun t => t / Z.pos day_ns) (fun k => k * Z.pos day_ns).

(** [CycleFlowCalculator.run] *)
Definition run (cycle_data : Frame) (cycle : list string)
  : result (option DataFrame) :=
  calculate_cycle_flow_data cycle_data (active_cycles cycle) freq_1M
                            "completed_timestamp".

(** ** Concrete tables *)

Definition date (y m d : Z) : Z :=
  Calendar.days_from_civil y m d * Z.pos day_ns.

Definition days (n : Z) : Z := n * Z.pos day_ns.
Definition hours (n : Z) : Z := n * 3600000000000.

Definition two_items : Frame :=
  [ ("key", [Str "A-1"; Str "A-2"]);
    ("completed_timestamp",
       [Timestamp (date 2020 2 15); Timestamp (date 2020 2 20)]);
    ("Dev duration", [Timedelta (days 1); Timedelta (days 2)]);
    ("QA duration", [Timedelta (hours 12); NA]) ]%string.

Definition one_item : Frame :=
  [ ("completed_timestamp", [Timestamp (date 2020 2 15)]);
    ("A duration", [Timedelta (days 2)]);
    ("B duration", [NA]) ]%string.

Definition no_dates : Frame :=
  [ ("completed_timestamp", [NA; Timedelta 0]);
    ("Dev duration", [Timedelta (days 1); NA]) ]%string.

Definition day_and_a_half : Frame :=
  [ ("completed_timestamp",
       [Timestamp (date 2020 2 10); Timestamp (date 2020 2 11)]);
    ("Dev duration", [Timedelta (hours 12); Timedelta (hours 24)]) ]%string.

Definition gap_items : Frame :=
  [ ("completed_timestamp",
       [Timestamp (date 2020 1 10); Timestamp (date 2020 3 5)]);
    ("Dev duration", [Timedelta (days 1); Timedelta (days 2)]) ]%string.

(** ** The aggregate, row by row

    What the pipeline computes, written over the rows of the input and
    compared with the pipeline below.  The totals follow the description of
    a period-aggregate row in the specification: for each stage, the sum,
    over the items whose bucketing timestamp falls in the bin, of the
    duration of the item in the stage, a missing duration counting for
    nothing, as a number of days.  The rows are the bins of the
    resampling. *)

(** The duration a cell adds to a total. *)
Definition dur0 (v : value) : Z :=
  match v with Timedelta d => d | _ => 0 end.

(** The timestamps of the bucketing column, in row order. *)
Fixpoint valid_stamps (keys : Series) : list Z :=
  match keys with
  | [] => []
  | Timestamp t :: r => t :: valid_stamps r
  | _ :: r => valid_stamps r
  end.

(** Total of stage column [s] in bin [k]: the durations of the rows whose
    timestamp falls in [k]. *)
Fixpoint bucket_total (f : Frequency) (keys s : Series) (k : Z) : Z :=
  match keys, s with
  | key :: keys', c :: s' =>
      match key with
      | Timestamp t => if bucket f t =? k then dur0 c else 0
      | _ => 0
      end + bucket_total f keys' s' k
  | _, _ => 0
  end.

(** A number of nanoseconds as a number of days. *)
Definition to_days (d : Z) : value := Float (Qred (d # day_ns)).

(** One row for each bin, one column for each stage column. *)
Definition period_table (f : Frequency) (keys : Series) (stages : Frame)
  : DataFrame :=
  let ks := bins (map (bucket f) (valid_stamps keys)) in
  mkDataFrame (map (label f) ks)
    (map (fun c => (fst c, map (fun k => to_days (bucket_total f keys (snd c) k)) ks))
         stages).

(** A cell of the bucketing column is a timestamp, missing, or the
    zero-length sentinel. *)
Definition key_cell_ok (c : value) : bool :=
  match c with
  | NA | Timestamp _ => true
  | Timedelta d => d =? 0
  | _ => false
  end.

(** In the rows that carry a timestamp, a cell of a stage column is a
    duration or missing. *)
Fixpoint stage_cells_ok (keys s : Series) : bool :=
  match keys, s with
  | key :: keys', c :: s' =>
      match key, c with
      | Timestamp _, (NA | Timedelta _) => true
      | Timestamp _, _ => false
      | _, _ => true
      end && stage_cells_ok keys' s'
  | _, _ => true
  end.

(** The rows of column [s] that survive the zero filling and the removal of
    the rows whose key [s0] is missing. *)
Definition masked (s0 s : Series) : Series :=
  select_mask (series_ne (fillna_series (Timedelta 0) s0) (Timedelta 0))
              (fillna_series (Timedelta 0) s).

(** A frequency is monotone when later bins carry later labels. *)
Definition label_increasing (f : Frequency) : Prop :=
  forall a b, a < b -> label f a < label f b.

(** ** Definitions used in the statements and proofs *)

(** Lines 104 to 122 of the source, on the resampled frame. *)
Definition convert_and_order (duration_cols : list string)
  (sampled : DataFrame) : result (option DataFrame) :=
  selected <- getitem_list (columns sampled) duration_cols ;;
  days <- truediv_day_frame selected ;;
  let cols := setitem_list (columns sampled) days in
  let cols := fillna (Float 0) cols in
  if nodupb duration_cols
  then Ok (Some (mkDataFrame (index sampled)
                             (sort_index_axis1 duration_cols cols)))
  else Raise ValueError.

(** The stage columns after the removal of the rows without a key. *)
Definition masked_frame (s0 : Series) (rest : Frame) : Frame :=
  map (fun c => (fst c, masked s0 (snd c))) rest.

(** The stage columns after the resampling: totals as durations. *)
Definition sum_frame (f : Frequency) (s0 : Series) (rest : Frame) : Frame :=
  map (fun c =>
         (fst c,
          map (fun k => Timedelta (bucket_total f s0 (snd c) k))
              (bins (map (bucket f) (valid_stamps s0)))))
      rest.

(** The cell of column [l] in row [i]. *)
Definition cell (t : DataFrame) (l : string) (i : nat) : option value :=
  match getitem (columns t) l with
  | Ok s => nth_error s i
  | Raise _ => None
  end.

(** A list, and a frame, without the entry or the row at position [i]. *)
Fixpoint delete_nth {A} (i : nat) (l : list A) : list A :=
  match l with
  | [] => []
  | x :: r => match i with O => r | S j => x :: delete_nth j r end
  end.

Definition drop_row (i : nat) (df : Frame) : Frame :=
  map (fun c => (fst c, delete_nth i (snd c))) df.

(** The bucketing timestamp of a row is missing: absent, or equal to the
    zero-length sentinel. *)
Definition missing_key (c : value) : Prop := c = NA \/ c = Timedelta 0.

(** Every row of the result stands for a bin that holds a timestamp. *)
Definition only_populated_buckets (f : Frequency) (s0 : Series)
  (t : DataFrame) : Prop :=
  forall p, In p (index t) ->
            exists ts, In (Timestamp ts) s0 /\ label f (bucket f ts) = p.

(** ** Writing the chart

    The calls of [write] and [write_chart] that reach the outside, in the
    order they are made. *)

Inductive event : Type :=
| LogDebug (msg : string)
| LogInfo (msg : string)
| LogWarning (msg : string)
| Subplots
| SetTitle (title : string)
| PlotArea (data : DataFrame)        (* stacked, without legend *)
| SetXLabel (text : string)
| SetYLabel (text : string)
| Legend
| SetChartStyle
| SaveFig (output_file : string) (dpi : Z)
| CloseFig.

(** [write_chart], lines 43 to 63. *)
Definition write_chart (data : DataFrame) (output_file : string)
  : list event :=
  if Nat.eqb (List.length (index data)) 0
  then [LogWarning "Cannot draw cycle flow without data"]
  else [ Subplots;
         SetTitle "Cycle flow";
         PlotArea data;
         SetXLabel "Period of issue complete";
         SetYLabel "Time spent (days)";
         Legend;
         SetChartStyle;
         LogInfo ("Writing cycle flow chart to " ++ output_file);
         SaveFig output_file 300;
         CloseFig ].

(** The truth value of a setting: [None] and the empty string are false. *)
Definition setting_is_true (s : option string) : bool :=
  match s with
  | None => false
  | Some s => negb (String.eqb s "")
  end.

(** [if data:] on the result of [run].  [None] is false; pandas refuses to
    give a truth value to a frame and raises [ValueError]. *)
Definition truth_value (data : option DataFrame) : result bool :=
  match data with
  | None => Ok false
  | Some _ => Raise ValueError
  end.

(** [write], lines 32 to 41: [cycle_flow_chart] is the setting of that
    name, [data] the stored result of [run]. *)
Definition write (cycle_flow_chart : option string)
  (data : option DataFrame) : result (list event) :=
  if setting_is_true cycle_flow_chart then
    b <- truth_value data ;;
    if b then
      match data, cycle_flow_chart with
      | Some d, Some output_file => Ok (write_chart d output_file)
      | _, _ => Raise TypeError  (* a true setting is a string, a true
                                    value is a frame *)
      end
    else Ok [LogInfo "Did not match any entries for cycle flow chart"]
  else Ok [LogDebug "No output file specified for cycle flow chart"].

(** ** Rows and totals *)

(** A list with its entries at positions [i] and [i + 1] exchanged. *)
Fixpoint swap_at {A} (i : nat) (l : list A) : list A :=
  match l with
  | [] => []
  | a :: r =>
      match i with
      | O => match r with
             | b :: r' => b :: a :: r'
             | [] => l
             end
      | S j => a :: swap_at j r
      end
  end.

(** A frame with its rows [i] and [i + 1] exchanged. *)
Definition swap_rows (i : nat) (df : Frame) : Frame :=
  map (fun c => (fst c, swap_at i (snd c))) df.

(** Every column of a frame has one cell for each of its [n] rows. *)
Definition rectangular (n : nat) (df : Frame) : Prop :=
  Forall (fun c => List.length (snd c) = n) df.

(** The position, among the rows a mask keeps, of the first of two
    neighbouring rows that are both kept. *)
Fixpoint kept_swap (mask : list bool) (i : nat) : option nat :=
  match mask with
  | [] => None
  | a :: r =>
      match i with
      | O => match r with
             | b :: _ => if a && b then Some O else None
             | [] => None
             end
      | S j => if a then option_map S (kept_swap r j) else kept_swap r j
      end
  end.

Definition swap_opt {A} (j : option nat) (l : list A) : list A :=
  match j with
  | Some j => swap_at j l
  | None => l
  end.

(** The mask of the bucketing column [s0]. *)
Definition key_mask (s0 : Series) : list bool :=
  series_ne (fillna_series (Timedelta 0) s0) (Timedelta 0).

Definition sumZ (l : list Z) : Z := fold_right Z.add 0 l.

(** Total of stage column [s] over the rows that carry a timestamp. *)
Fixpoint stage_total (keys s : Series) : Z :=
  match keys, s with
  | key :: keys', c :: s' =>
      match key with
      | Timestamp _ => dur0 c
      | _ => 0
      end + stage_total keys' s'
  | _, _ => 0
  end.

(** A cell that holds a number, and one that holds a number not below 0. *)
Definition is_number (v : value) : Prop := exists q, v = Float q.

Definition is_nonneg_number (v : value) : Prop :=
  exists q, v = Float q /\ (0 <= q)%Q.

(** ** The error monad *)

Lemma bind_Ok_inv {A B} (c : result A) (k : A -> result B) (b : B) :
  bind c k = Ok b -> exists a, c = Ok a /\ k a = Ok b.
Proof.
  destruct c as [a|e]; simpl; intro H; [eauto | discriminate].
Qed.

Ltac inv_bind H :=
  let a := fresh "x" in
  let Ha := fresh "E" in
  apply bind_Ok_inv in H; destruct H as (a & Ha & H).

Lemma mapM_map {A B} (f : A -> result B) (g : A -> B) (l : list A) :
  (forall a, In a l -> f a = Ok (g a)) -> mapM f l = Ok (map g l).
Proof.
  induction l as [|a l IH]; simpl; intro H; [reflexivity|].
  rewrite (H a (or_introl eq_refl)); simpl.
  rewrite IH by (intros; apply H; now right).
  reflexivity.
Qed.

Lemma mapM_ext_in {A B} (f g : A -> result B) (l : list A) :
  (forall a, In a l -> f a = g a) -> mapM f l = mapM g l.
Proof.
  induction l as [|a l IH]; simpl; intro H; [reflexivity|].
  rewrite (H a (or_introl eq_refl)).
  rewrite IH by (intros; apply H; now right).
  reflexivity.
Qed.

(** ** Column selection *)

Lemma has_column_In (df : Frame) (l : string) :
  has_column df l = true <-> In l (map fst df).
Proof.
  unfold has_column. rewrite existsb_exists. split.
  - intros (c & Hc & E). apply String.eqb_eq in E. subst.
    now apply in_map.
  - intro H. apply in_map_iff in H. destruct H as (c & <- & Hc).
    exists c. split; [assumption | apply String.eqb_refl].
Qed.

Lemma getitem_Ok_In (df : Frame) (l : string) (s : Series) :
  getitem df l = Ok s -> In (l, s) df.
Proof.
  induction df as [|[n s'] r IH]; simpl; [discriminate|].
  destruct (String.eqb n l) eqn:E.
  - apply String.eqb_eq in E. intro H; injection H as <-. subst. now left.
  - intro H. right. auto.
Qed.

Lemma getitem_missing (df : Frame) (l : string) :
  has_column df l = false -> getitem df l = Raise (KeyError [l]).
Proof.
  induction df as [|[n s'] r IH]; simpl; [reflexivity|].
  destruct (String.eqb n l); simpl; [discriminate | exact IH].
Qed.

Lemma getitem_present (df : Frame) (l : string) :
  has_column df l = true -> exists s, getitem df l = Ok s.
Proof.
  induction df as [|[n s'] r IH]; simpl; [discriminate|].
  destruct (String.eqb n l); simpl; eauto.
Qed.

Lemma getitem_list_cons (df : Frame) (l : string) (ls : list string)
  (sel : Frame) :
  getitem_list df (l :: ls) = Ok sel ->
  exists s rest, sel = (l, s) :: rest /\ getitem df l = Ok s /\
                 getitem_list df ls = Ok rest.
Proof.
  unfold getitem_list. simpl.
  destruct (has_column df l) eqn:Hl; simpl; [|discriminate].
  destruct (filter _ ls); [|discriminate].
  simpl. intro H. inv_bind H. inv_bind E. injection E as <-.
  inv_bind H. injection H as <-. eauto.
Qed.

Lemma getitem_list_cons_Ok (df : Frame) (l : string) (ls : list string)
  (s : Series) (rest : Frame) :
  getitem df l = Ok s -> getitem_list df ls = Ok rest ->
  getitem_list df (l :: ls) = Ok ((l, s) :: rest).
Proof.
  unfold getitem_list. simpl. intros Hs Hr.
  destruct (has_column df l) eqn:Hl.
  - simpl. destruct (filter _ ls); [|discriminate].
    rewrite Hs. simpl. rewrite Hr. reflexivity.
  - rewrite getitem_missing in Hs by assumption. discriminate.
Qed.

Lemma getitem_list_labels (df : Frame) (ls : list string) (sel : Frame) :
  getitem_list df ls = Ok sel -> map fst sel = ls.
Proof.
  revert sel; induction ls as [|l ls IH]; intros sel H.
  - unfold getitem_list in H. simpl in H. now injection H as <-.
  - apply getitem_list_cons in H. destruct H as (s & rest & -> & _ & H).
    simpl. f_equal. auto.
Qed.

Lemma getitem_list_all_present (df : Frame) (ls : list string) (sel : Frame) :
  getitem_list df ls = Ok sel -> forall l, In l ls -> In l (map fst df).
Proof.
  revert sel; induction ls as [|l ls IH]; intros sel H l' Hin; [destruct Hin|].
  apply getitem_list_cons in H. destruct H as (s & rest & -> & Hs & H).
  destruct Hin as [<-|Hin].
  - apply getitem_Ok_In in Hs. now apply (in_map fst) in Hs.
  - eapply IH; eauto.
Qed.

(** ** Rows that survive the removal of missing keys *)

Lemma masked_keys_stamps (s0 : Series) (ts : list Z) :
  as_timestamps (masked s0 s0) = Ok ts -> ts = valid_stamps s0.
Proof.
  unfold masked. revert ts.
  induction s0 as [|c s0 IH]; simpl; intros ts H.
  - now injection H as <-.
  - destruct c as [|t|d|x|s]; simpl in H |- *.
    + auto.
    + inv_bind H. injection H as <-. f_equal. auto.
    + destruct (d =? 0); simpl in H; [auto | discriminate].
    + discriminate.
    + discriminate.
Qed.

Lemma masked_keys_ok (s0 : Series) :
  forallb key_cell_ok s0 = true ->
  as_timestamps (masked s0 s0) = Ok (valid_stamps s0).
Proof.
  unfold masked.
  induction s0 as [|c s0 IH]; simpl; intro H; [reflexivity|].
  apply andb_true_iff in H. destruct H as [Hc H].
  destruct c as [|t|d|x|s]; simpl in Hc |- *; try discriminate.
  - auto.
  - rewrite IH by assumption. reflexivity.
  - rewrite Hc. simpl. auto.
Qed.

Lemma masked_length (s0 : Series) (ts : list Z) :
  as_timestamps (masked s0 s0) = Ok ts ->
  List.length (masked s0 s0) = List.length ts.
Proof.
  generalize (masked s0 s0) as l. intro l. revert ts.
  induction l as [|c l IH]; simpl; intros ts H.
  - now injection H as <-.
  - destruct c; try discriminate.
    inv_bind H. injection H as <-. simpl. f_equal. auto.
Qed.

Lemma masked_bin_sum (f : Frequency) (s0 s : Series) (ts ds : list Z)
  (k : Z) :
  as_timestamps (masked s0 s0) = Ok ts ->
  as_timedeltas (masked s0 s) = Ok ds ->
  bin_sum (map (bucket f) ts) ds k = bucket_total f s0 s k.
Proof.
  unfold masked. revert s ts ds.
  induction s0 as [|c s0 IH]; intros s ts ds Ht Hd.
  - simpl in Ht, Hd. injection Ht as <-. reflexivity.
  - destruct s as [|v s].
    + simpl in Hd.
      injection Hd as <-. simpl. destruct (map (bucket f) ts); reflexivity.
    + destruct c as [|t|d|x|y]; simpl in Ht, Hd |- *.
      * eapply IH; eauto.
      * inv_bind Ht. injection Ht as <-.
        destruct v as [|t'|d'|x'|y']; simpl in Hd; try discriminate.
        -- inv_bind Hd. injection Hd as <-. simpl.
           rewrite (IH s x x0) by assumption.
           destruct (bucket f t =? k); reflexivity.
        -- inv_bind Hd. injection Hd as <-. simpl.
           rewrite (IH s x x0) by assumption. reflexivity.
      * destruct (d =? 0); simpl in Ht, Hd; [|discriminate].
        eapply IH; eauto.
      * discriminate.
      * discriminate.
Qed.

Lemma masked_stage_ok (s0 s : Series) :
  forallb key_cell_ok s0 = true -> stage_cells_ok s0 s = true ->
  exists ds, as_timedeltas (masked s0 s) = Ok ds.
Proof.
  unfold masked. revert s.
  induction s0 as [|c s0 IH]; intros s Hk Hs.
  - simpl. eauto.
  - destruct s as [|v s].
    + simpl. eauto.
    + simpl in Hk, Hs. apply andb_true_iff in Hk. destruct Hk as [Hc Hk].
      apply andb_true_iff in Hs. destruct Hs as [Hv Hs].
      destruct (IH s Hk Hs) as (ds & E).
      destruct c as [|t|d|x|y]; simpl in Hc |- *; try discriminate.
      * eauto.
      * destruct v as [|t'|d'|x'|y']; simpl in Hv |- *; try discriminate;
          rewrite E; simpl; eauto.
      * rewrite Hc. simpl. eauto.
Qed.

Lemma masked_no_stamp (s0 : Series) :
  Forall (fun c => c = NA \/ c = Timedelta 0) s0 -> masked s0 s0 = [].
Proof.
  unfold masked. induction 1 as [|c s0 [->| ->] _ IH]; simpl; auto.
Qed.

(** ** Labels of the intermediate frames *)

Lemma filter_not_on (on : string) (df : Frame) :
  ~ In on (map fst df) ->
  filter (fun c => negb (String.eqb (fst c) on)) df = df.
Proof.
  induction df as [|c df IH]; simpl; intro H; [reflexivity|].
  destruct (String.eqb (fst c) on) eqn:E.
  - apply String.eqb_eq in E. tauto.
  - simpl. f_equal. tauto.
Qed.

Lemma filter_labels_ne (on : string) (df : Frame) (l : string) :
  In l (map fst (filter (fun c => negb (String.eqb (fst c) on)) df)) ->
  l <> on.
Proof.
  intro H. apply in_map_iff in H. destruct H as (c & <- & H).
  apply filter_In in H. destruct H as [_ H].
  intro E. rewrite E, String.eqb_refl in H. discriminate.
Qed.

Lemma nodupb_NoDup (l : list string) : nodupb l = true <-> NoDup l.
Proof.
  induction l as [|a l IH]; simpl.
  - split; [constructor | reflexivity].
  - rewrite andb_true_iff, negb_true_iff, IH. split.
    + intros [Ha Hl]. constructor; [|assumption].
      intro Hin. assert (existsb (String.eqb a) l = true).
      { apply existsb_exists. exists a. split; [assumption|].
        apply String.eqb_refl. }
      congruence.
    + intro H. inversion H as [|? ? Ha Hl]; subst. split; [|assumption].
      destruct (existsb (String.eqb a) l) eqn:E; [|reflexivity].
      apply existsb_exists in E. destruct E as (b & Hb & E).
      apply String.eqb_eq in E. subst. contradiction.
Qed.

Lemma getitem_head_ne (n l : string) (s : Series) (df : Frame) :
  n <> l -> getitem ((n, s) :: df) l = getitem df l.
Proof.
  intro H. simpl. apply String.eqb_neq in H. now rewrite H.
Qed.

Lemma getitem_list_head_fresh (n : string) (s : Series) (df : Frame)
  (ls : list string) :
  ~ In n ls -> getitem_list ((n, s) :: df) ls = getitem_list df ls.
Proof.
  intro H. unfold getitem_list.
  assert (Hf : forall l, In l ls ->
             has_column ((n, s) :: df) l = has_column df l).
  { intros l Hl. unfold has_column. simpl.
    destruct (String.eqb n l) eqn:E; [|reflexivity].
    apply String.eqb_eq in E. subst. contradiction. }
  rewrite (filter_ext_in _ (fun l => negb (has_column df l))).
  2:{ intros l Hl. now rewrite Hf. }
  destruct (filter _ ls); [|reflexivity].
  apply mapM_ext_in. intros l Hl.
  rewrite getitem_head_ne; [reflexivity|].
  intro E. subst. contradiction.
Qed.

(** Selecting every label of a frame without duplicates returns it. *)
Lemma getitem_list_self (df : Frame) :
  NoDup (map fst df) -> getitem_list df (map fst df) = Ok df.
Proof.
  induction df as [|[n s] df IH]; simpl; intro H; [reflexivity|].
  inversion H as [|? ? Hn Hd]; subst.
  apply getitem_list_cons_Ok.
  - simpl. now rewrite String.eqb_refl.
  - rewrite getitem_list_head_fresh by assumption. auto.
Qed.

Lemma setitem_app_fresh (pre : Frame) (n : string) (s s' : Series)
  (r : Frame) :
  ~ In n (map fst pre) ->
  setitem (pre ++ (n, s') :: r) n s = pre ++ (n, s) :: r.
Proof.
  induction pre as [|[m t] pre IH]; simpl; intro H.
  - now rewrite String.eqb_refl.
  - destruct (String.eqb m n) eqn:E.
    + apply String.eqb_eq in E. tauto.
    + f_equal. tauto.
Qed.

Lemma setitem_list_app (pre old new : Frame) :
  NoDup (map fst (pre ++ old)) -> map fst old = map fst new ->
  setitem_list (pre ++ old) new = pre ++ new.
Proof.
  unfold setitem_list. revert pre old.
  induction new as [|[n s] new IH]; intros pre old Hd Hl.
  - destruct old; [reflexivity | discriminate].
  - destruct old as [|[n' s'] old]; [discriminate|].
    simpl in Hl. injection Hl as -> Hl. simpl.
    rewrite setitem_app_fresh.
    2:{ rewrite map_app in Hd. apply NoDup_remove_2 in Hd.
        intro Hin. apply Hd. apply in_or_app. now left. }
    change (pre ++ (n, s) :: old) with (pre ++ [(n, s)] ++ old).
    rewrite app_assoc. rewrite (IH (pre ++ [(n, s)]) old).
    + now rewrite <- app_assoc.
    + rewrite <- app_assoc. simpl.
      rewrite map_app in Hd |- *. exact Hd.
    + assumption.
Qed.

Lemma setitem_list_same_labels (old new : Frame) :
  NoDup (map fst old) -> map fst old = map fst new ->
  setitem_list old new = new.
Proof.
  intros Hd Hl. exact (setitem_list_app [] old new Hd Hl).
Qed.

(** ** Sorting columns that are already in category order *)

Lemma code_at (pre : list string) (l : string) (suf : list string) :
  ~ In l pre -> code (pre ++ l :: suf) l = Some (List.length pre).
Proof.
  induction pre as [|p pre IH]; simpl; intro H.
  - now rewrite String.eqb_refl.
  - destruct (String.eqb p l) eqn:E.
    + apply String.eqb_eq in E. tauto.
    + rewrite IH by tauto. reflexivity.
Qed.

Lemma sort_in_order (pre : list string) (df : Frame) :
  NoDup (pre ++ map fst df) ->
  sort_index_axis1 (pre ++ map fst df) df = df.
Proof.
  revert pre. induction df as [|c df IH]; intros pre Hd; [reflexivity|].
  unfold sort_index_axis1 in *. simpl.
  assert (Hc : ~ In (fst c) pre).
  { apply NoDup_remove_2 in Hd. intro Hin. apply Hd.
    apply in_or_app. now left. }
  specialize (IH (pre ++ [fst c])).
  rewrite <- app_assoc in IH. simpl in IH. rewrite IH by assumption.
  destruct df as [|d df]; [reflexivity|].
  simpl. rewrite code_at by assumption.
  change (pre ++ fst c :: fst d :: map fst df)
    with (pre ++ [fst c] ++ fst d :: map fst df).
  rewrite app_assoc. rewrite code_at.
  - simpl. rewrite length_app. simpl.
    replace (_ <=? _)%nat with true; [reflexivity|].
    symmetry. apply Nat.leb_le. lia.
  - simpl in Hd.
    change (pre ++ fst c :: fst d :: map fst df)
      with (pre ++ [fst c] ++ fst d :: map fst df) in Hd.
    rewrite app_assoc in Hd. apply NoDup_remove_2 in Hd.
    intro Hin. apply Hd. apply in_or_app. now left.
Qed.

(** ** The pipeline after the selection of the columns *)

Lemma calculate_selected (df : Frame) (names : list string)
  (f : Frequency) (on : string) (s0 : Series) (rest : Frame) :
  getitem df on = Ok s0 ->
  getitem_list df (duration_cols names) = Ok rest ->
  calculate_cycle_flow_data df names f on =
  if Nat.eqb (List.length (masked s0 s0)) 0 then Ok None
  else sampled <- resample_sum f on ((on, masked s0 s0) :: masked_frame s0 rest) ;;
       convert_and_order (duration_cols names) sampled.
Proof.
  intros Hs Hr. unfold calculate_cycle_flow_data.
  rewrite (getitem_list_cons_Ok df on _ s0 rest Hs Hr).
  simpl. rewrite String.eqb_refl. simpl.
  unfold getitem_mask, fillna. rewrite map_map. reflexivity.
Qed.

Lemma resample_columns (f : Frequency) (s0 : Series) (ts ks : list Z)
  (rest x : Frame) :
  as_timestamps (masked s0 s0) = Ok ts ->
  mapM (fun c =>
          ds <- as_timedeltas (snd c) ;;
          Ok (fst c,
              map (fun k => Timedelta (bin_sum (map (bucket f) ts) ds k)) ks))
       (masked_frame s0 rest) = Ok x ->
  x = map (fun c =>
             (fst c, map (fun k => Timedelta (bucket_total f s0 (snd c) k)) ks))
          rest.
Proof.
  intro Ht. revert x. induction rest as [|c rest IH]; simpl; intros x H.
  - now injection H as <-.
  - inv_bind H. inv_bind E. injection E as <-.
    inv_bind H. injection H as <-. f_equal; [|auto].
    f_equal. apply map_ext. intro k. f_equal.
    eapply masked_bin_sum; eauto.
Qed.

Lemma resample_columns_ok (f : Frequency) (s0 : Series) (ts ks : list Z)
  (rest : Frame) :
  forallb key_cell_ok s0 = true ->
  as_timestamps (masked s0 s0) = Ok ts ->
  forallb (fun c => stage_cells_ok s0 (snd c)) rest = true ->
  exists x,
    mapM (fun c =>
            ds <- as_timedeltas (snd c) ;;
            Ok (fst c,
                map (fun k => Timedelta (bin_sum (map (bucket f) ts) ds k)) ks))
         (masked_frame s0 rest) = Ok x.
Proof.
  intros Hk Ht. induction rest as [|c rest IH]; simpl; intro H; [eauto|].
  apply andb_true_iff in H. destruct H as [Hc H].
  destruct (masked_stage_ok s0 (snd c) Hk Hc) as (ds & E).
  destruct (IH H) as (x & Ex).
  rewrite E. simpl. rewrite Ex. simpl. eauto.
Qed.

Lemma resample_masked_inv (f : Frequency) (on : string) (s0 : Series)
  (rest : Frame) (sampled : DataFrame) :
  ~ In on (map fst rest) ->
  resample_sum f on ((on, masked s0 s0) :: masked_frame s0 rest) = Ok sampled ->
  as_timestamps (masked s0 s0) = Ok (valid_stamps s0) /\
  sampled = mkDataFrame
              (map (label f) (bins (map (bucket f) (valid_stamps s0))))
              (sum_frame f s0 rest).
Proof.
  intros Hon H. unfold resample_sum in H.
  simpl in H. rewrite String.eqb_refl in H. simpl in H.
  inv_bind H. pose proof (masked_keys_stamps _ _ E) as ->.
  split; [assumption|].
  inv_bind H. injection H as <-. f_equal.
  rewrite filter_not_on in E0.
  2:{ unfold masked_frame. rewrite map_map. simpl. assumption. }
  eapply resample_columns; eauto.
Qed.

Lemma resample_masked_ok (f : Frequency) (on : string) (s0 : Series)
  (rest : Frame) :
  ~ In on (map fst rest) ->
  forallb key_cell_ok s0 = true ->
  forallb (fun c => stage_cells_ok s0 (snd c)) rest = true ->
  resample_sum f on ((on, masked s0 s0) :: masked_frame s0 rest) =
  Ok (mkDataFrame (map (label f) (bins (map (bucket f) (valid_stamps s0))))
                  (sum_frame f s0 rest)).
Proof.
  intros Hon Hk Hr.
  pose proof (masked_keys_ok s0 Hk) as Ht.
  destruct (resample_columns_ok f s0 _
              (bins (map (bucket f) (valid_stamps s0))) rest Hk Ht Hr)
    as (x & Ex).
  unfold resample_sum. simpl. rewrite String.eqb_refl. simpl.
  rewrite Ht. simpl. rewrite filter_not_on.
  2:{ unfold masked_frame. rewrite map_map. simpl. assumption. }
  rewrite Ex. simpl. f_equal. f_equal.
  eapply resample_columns; eauto.
Qed.

(** The labels of a resampled frame are those of the summed columns. *)
Lemma resample_labels (f : Frequency) (on : string) (df : Frame)
  (sampled : DataFrame) :
  resample_sum f on df = Ok sampled ->
  map fst (columns sampled) =
  map fst (filter (fun c => negb (String.eqb (fst c) on)) df).
Proof.
  unfold resample_sum. intro H. inv_bind H. inv_bind H. inv_bind H.
  injection H as <-. simpl.
  revert x1 E1. generalize (filter (fun c => negb (String.eqb (fst c) on)) df).
  induction l as [|c l IH]; simpl; intros r H.
  - now injection H as <-.
  - inv_bind H. inv_bind E1. injection E1 as <-.
    inv_bind H. injection H as <-. simpl. f_equal. auto.
Qed.

Lemma sum_frame_labels (f : Frequency) (s0 : Series) (rest : Frame) :
  map fst (sum_frame f s0 rest) = map fst rest.
Proof.
  unfold sum_frame. rewrite map_map. reflexivity.
Qed.

Lemma fillna_series_no_missing (v : value) (s : Series) :
  Forall (fun x => isna x = false) s -> fillna_series v s = s.
Proof.
  induction 1 as [|x s Hx _ IH]; simpl; [reflexivity|].
  rewrite Hx. f_equal. exact IH.
Qed.

Lemma fillna_no_missing (v : value) (df : Frame) :
  Forall (fun c => Forall (fun x => isna x = false) (snd c)) df ->
  fillna v df = df.
Proof.
  induction 1 as [|[n s] df Hs _ IH]; simpl; [reflexivity|].
  f_equal; [|exact IH].
  simpl in Hs. now rewrite fillna_series_no_missing.
Qed.

Lemma convert_and_order_sums (f : Frequency) (names : list string)
  (s0 : Series) (rest : Frame) (idx : list Z) :
  NoDup (duration_cols names) ->
  map fst rest = duration_cols names ->
  convert_and_order (duration_cols names)
                    (mkDataFrame idx (sum_frame f s0 rest)) =
  Ok (Some (mkDataFrame idx (columns (period_table f s0 rest)))).
Proof.
  intros Hd Hl. unfold convert_and_order. simpl.
  rewrite <- Hl at 1. rewrite <- (sum_frame_labels f s0 rest) at 1.
  rewrite getitem_list_self.
  2:{ rewrite sum_frame_labels, Hl. assumption. }
  simpl.
  set (ks := bins (map (bucket f) (valid_stamps s0))).
  set (days := map (fun c =>
                 (fst c, map (fun k => to_days (bucket_total f s0 (snd c) k)) ks))
               rest).
  assert (E : truediv_day_frame (sum_frame f s0 rest) = Ok days).
  { unfold truediv_day_frame, sum_frame, days. fold ks.
    clear Hl. induction rest as [|c rest IH]; simpl; [reflexivity|].
    rewrite IH. rewrite (mapM_map truediv_day
      (fun v => to_days (dur0 v))).
    - simpl. rewrite map_map. reflexivity.
    - intros a Ha. apply in_map_iff in Ha. destruct Ha as (k & <- & _).
      reflexivity. }
  rewrite E. simpl.
  rewrite setitem_list_same_labels.
  2:{ rewrite sum_frame_labels, Hl. assumption. }
  2:{ rewrite sum_frame_labels. unfold days. rewrite map_map. reflexivity. }
  rewrite fillna_no_missing.
  2:{ unfold days. apply Forall_forall. intros c Hc.
      apply in_map_iff in Hc. destruct Hc as (c' & <- & _). simpl.
      apply Forall_forall. intros x Hx.
      apply in_map_iff in Hx. destruct Hx as (k & <- & _). reflexivity. }
  apply (proj2 (nodupb_NoDup _)) in Hd as Hb. rewrite Hb.
  assert (El : map fst days = duration_cols names).
  { unfold days. rewrite map_map. simpl. assumption. }
  pose proof (sort_in_order [] days) as Hs.
  change ([] ++ map fst days) with (map fst days) in Hs.
  rewrite El in Hs. rewrite Hs by assumption. reflexivity.
Qed.

(** ** The aggregator against the row-by-row aggregate *)

Lemma calculate_Some_inv (df : Frame) (names : list string) (f : Frequency)
  (on : string) (t : DataFrame) :
  calculate_cycle_flow_data df names f on = Ok (Some t) ->
  exists s0 rest,
    getitem df on = Ok s0 /\
    getitem_list df (duration_cols names) = Ok rest /\
    NoDup (duration_cols names) /\
    ~ In on (duration_cols names) /\
    valid_stamps s0 <> [] /\
    as_timestamps (masked s0 s0) = Ok (valid_stamps s0) /\
    t = period_table f s0 rest.
Proof.
  intro H. pose proof H as H0.
  unfold calculate_cycle_flow_data in H0. inv_bind H0. clear H0.
  apply getitem_list_cons in E. destruct E as (s0 & rest & -> & Hs & Hr).
  exists s0, rest.
  rewrite (calculate_selected df names f on s0 rest Hs Hr) in H.
  destruct (Nat.eqb (List.length (masked s0 s0)) 0) eqn:En; [discriminate|].
  inv_bind H. rename x into sampled.
  pose proof H as Hc. unfold convert_and_order in Hc.
  inv_bind Hc. inv_bind Hc.
  destruct (nodupb (duration_cols names)) eqn:Hn; [|discriminate].
  apply nodupb_NoDup in Hn.
  assert (Hon : ~ In on (duration_cols names)).
  { intro Hin.
    pose proof (getitem_list_all_present _ _ _ E0 on Hin) as Hp.
    rewrite (resample_labels _ _ _ _ E) in Hp.
    now apply filter_labels_ne in Hp. }
  pose proof (getitem_list_labels _ _ _ Hr) as Hl.
  apply resample_masked_inv in E; [|now rewrite Hl].
  destruct E as [Ht ->].
  rewrite (convert_and_order_sums f names s0 rest _ Hn Hl) in H.
  injection H as <-.
  repeat (split; [assumption|]).
  split; [|split; [assumption | reflexivity]].
  intro Hv. apply masked_length in Ht. rewrite Hv in Ht. simpl in Ht.
  rewrite Ht in En. discriminate.
Qed.

Lemma calculate_ok (df : Frame) (names : list string) (f : Frequency)
  (on : string) (s0 : Series) (rest : Frame) :
  getitem df on = Ok s0 ->
  getitem_list df (duration_cols names) = Ok rest ->
  NoDup (duration_cols names) ->
  ~ In on (duration_cols names) ->
  forallb key_cell_ok s0 = true ->
  forallb (fun c => stage_cells_ok s0 (snd c)) rest = true ->
  valid_stamps s0 <> [] ->
  calculate_cycle_flow_data df names f on = Ok (Some (period_table f s0 rest)).
Proof.
  intros Hs Hr Hn Hon Hk Hc Hv.
  rewrite (calculate_selected df names f on s0 rest Hs Hr).
  pose proof (getitem_list_labels _ _ _ Hr) as Hl.
  pose proof (masked_length s0 _ (masked_keys_ok s0 Hk)) as Hlen.
  destruct (Nat.eqb (List.length (masked s0 s0)) 0) eqn:En.
  - apply Nat.eqb_eq in En. rewrite En in Hlen.
    destruct (valid_stamps s0); [contradiction | discriminate].
  - rewrite resample_masked_ok; try assumption; [|now rewrite Hl].
    simpl. now rewrite convert_and_order_sums.
Qed.

Lemma calculate_None (df : Frame) (names : list string) (f : Frequency)
  (on : string) (s0 : Series) (rest : Frame) :
  getitem df on = Ok s0 ->
  getitem_list df (duration_cols names) = Ok rest ->
  masked s0 s0 = [] ->
  calculate_cycle_flow_data df names f on = Ok None.
Proof.
  intros Hs Hr Hm.
  rewrite (calculate_selected df names f on s0 rest Hs Hr).
  rewrite Hm. reflexivity.
Qed.

(** ** Reading a cell of the result *)

Lemma getitem_list_getitem (df : Frame) (ls : list string) (sel : Frame)
  (l : string) :
  getitem_list df ls = Ok sel -> In l ls -> getitem sel l = getitem df l.
Proof.
  revert sel. induction ls as [|l0 ls IH]; intros sel H Hin; [destruct Hin|].
  apply getitem_list_cons in H. destruct H as (s & rest & -> & Hs & Hr).
  simpl. destruct (String.eqb l0 l) eqn:E.
  - apply String.eqb_eq in E. subst. now rewrite Hs.
  - apply String.eqb_neq in E. destruct Hin as [Hin|Hin]; [contradiction|].
    auto.
Qed.

Lemma getitem_map (g : Series -> Series) (df : Frame) (l : string) :
  getitem (map (fun c => (fst c, g (snd c))) df) l =
  (s <- getitem df l ;; Ok (g s)).
Proof.
  induction df as [|[n s] df IH]; simpl; [reflexivity|].
  destruct (String.eqb n l); [reflexivity | exact IH].
Qed.

Lemma period_table_cell (f : Frequency) (s0 s : Series) (rest : Frame)
  (l : string) (i : nat) :
  getitem rest l = Ok s ->
  cell (period_table f s0 rest) l i =
  option_map (fun k => to_days (bucket_total f s0 s k))
             (nth_error (bins (map (bucket f) (valid_stamps s0))) i).
Proof.
  intro H. unfold cell, period_table. simpl.
  rewrite (getitem_map (fun s =>
     map (fun k => to_days (bucket_total f s0 s k))
         (bins (map (bucket f) (valid_stamps s0))))).
  rewrite H. simpl. apply nth_error_map.
Qed.

(** ** The bins of a resampling *)

Lemma fold_min_spec (b : Z) (r : list Z) :
  In (fold_right Z.min b r) (b :: r) /\
  forall x, In x (b :: r) -> fold_right Z.min b r <= x.
Proof.
  induction r as [|a r [IHin IHle]]; simpl.
  - split; [now left | intros x [<-|[]]; lia].
  - split.
    + destruct (Z.min_spec a (fold_right Z.min b r)) as [[_ E]|[_ E]];
        rewrite E; simpl in IHin; tauto.
    + intros x [<-|[<-|Hx]].
      * specialize (IHle b (or_introl eq_refl)). lia.
      * lia.
      * specialize (IHle x (or_intror Hx)). lia.
Qed.

Lemma fold_max_spec (b : Z) (r : list Z) :
  In (fold_right Z.max b r) (b :: r) /\
  forall x, In x (b :: r) -> x <= fold_right Z.max b r.
Proof.
  induction r as [|a r [IHin IHle]]; simpl.
  - split; [now left | intros x [<-|[]]; lia].
  - split.
    + destruct (Z.max_spec a (fold_right Z.max b r)) as [[_ E]|[_ E]];
        rewrite E; simpl in IHin; tauto.
    + intros x [<-|[<-|Hx]].
      * specialize (IHle b (or_introl eq_refl)). lia.
      * lia.
      * specialize (IHle x (or_intror Hx)). lia.
Qed.

Lemma zrange_In (lo hi k : Z) : In k (zrange lo hi) <-> lo <= k <= hi.
Proof.
  unfold zrange. rewrite in_map_iff. split.
  - intros (i & <- & Hi). apply in_seq in Hi. lia.
  - intro H. exists (Z.to_nat (k - lo)). split; [lia|].
    apply in_seq. lia.
Qed.

Lemma zrange_length (lo hi : Z) :
  List.length (zrange lo hi) = Z.to_nat (hi - lo + 1).
Proof.
  unfold zrange. now rewrite length_map, length_seq.
Qed.

Lemma zrange_sorted_by (g : Z -> Z) (lo hi : Z) :
  (forall a b, a < b -> g a < g b) ->
  StronglySorted Z.lt (map g (zrange lo hi)).
Proof.
  intro Hg. unfold zrange.
  generalize (Z.to_nat (hi - lo + 1)) as n. generalize O as start.
  intros start n. revert start.
  induction n as [|n IH]; intro start; simpl; constructor.
  - apply IH.
  - apply Forall_forall. intros y Hy.
    apply in_map_iff in Hy. destruct Hy as (k & <- & Hk).
    apply in_map_iff in Hk. destruct Hk as (i & <- & Hi).
    apply in_seq in Hi. apply Hg. lia.
Qed.

(** The bins of a non-empty list of bin ordinals: every ordinal from the
    least to the greatest. *)
Lemma bins_spec (bs : list Z) :
  bs <> [] ->
  exists lo hi,
    bins bs = zrange lo hi /\ In lo bs /\ In hi bs /\
    forall b, In b bs -> lo <= b <= hi.
Proof.
  destruct bs as [|b r]; [congruence|]. intros _.
  exists (fold_right Z.min b r), (fold_right Z.max b r).
  destruct (fold_min_spec b r) as [Hm1 Hm2].
  destruct (fold_max_spec b r) as [HM1 HM2].
  repeat split; auto.
Qed.

Lemma bins_nonempty (bs : list Z) : bs <> [] -> bins bs <> [].
Proof.
  intro H. destruct (bins_spec bs H) as (lo & hi & -> & Hlo & _ & Hb).
  specialize (Hb lo Hlo). intro E.
  apply (f_equal (@List.length Z)) in E. rewrite zrange_length in E.
  simpl in E. lia.
Qed.

(** A bin in which no timestamp falls has a zero total. *)
Lemma bucket_total_empty_bin (f : Frequency) (s0 s : Series) (k : Z) :
  (forall t, In t (valid_stamps s0) -> bucket f t <> k) ->
  bucket_total f s0 s k = 0.
Proof.
  revert s. induction s0 as [|c s0 IH]; intros s H; [reflexivity|].
  destruct s as [|v s]; [reflexivity|].
  simpl. rewrite IH.
  - destruct c as [|t| | |]; try reflexivity.
    destruct (bucket f t =? k) eqn:E; [|reflexivity].
    apply Z.eqb_eq in E. exfalso. apply (H t); [now left | assumption].
  - intros t Ht. apply H. destruct c; simpl; auto.
Qed.

Lemma valid_stamps_In (s0 : Series) (t : Z) :
  In t (valid_stamps s0) <-> In (Timestamp t) s0.
Proof.
  induction s0 as [|c s0 IH]; simpl; [tauto|].
  destruct c; simpl; rewrite IH; intuition congruence.
Qed.

(** ** Selection depends on the labels only *)

Lemma has_column_labels (df df' : Frame) (l : string) :
  map fst df' = map fst df -> has_column df' l = has_column df l.
Proof.
  assert (H : forall d : Frame,
             has_column d l = existsb (fun n => String.eqb n l) (map fst d)).
  { induction d as [|c d IH]; simpl; [reflexivity|]. now rewrite <- IH. }
  intro E. now rewrite !H, E.
Qed.

Lemma getitem_list_present (df : Frame) (ls : list string) :
  (forall l, In l ls -> In l (map fst df)) ->
  exists sel, getitem_list df ls = Ok sel.
Proof.
  induction ls as [|l ls IH]; intro H.
  - exists []. reflexivity.
  - destruct IH as (rest & Hr); [intros; apply H; now right|].
    destruct (getitem_present df l) as (s & Hs).
    { apply has_column_In. apply H. now left. }
    exists ((l, s) :: rest). now apply getitem_list_cons_Ok.
Qed.

(** ** Zero filling is idempotent and commutes with selection *)

Lemma fillna_series_idem (v : value) (s : Series) :
  isna v = false -> fillna_series v (fillna_series v s) = fillna_series v s.
Proof.
  intro Hv. unfold fillna_series. rewrite map_map. apply map_ext.
  intro c. destruct (isna c) eqn:E; [now rewrite Hv | now rewrite E].
Qed.

Lemma fillna_idem (v : value) (df : Frame) :
  isna v = false -> fillna v (fillna v df) = fillna v df.
Proof.
  intro Hv. unfold fillna. rewrite map_map. apply map_ext.
  intro c. simpl. now rewrite fillna_series_idem.
Qed.

Lemma getitem_list_map (g : Series -> Series) (df : Frame)
  (ls : list string) :
  getitem_list (map (fun c => (fst c, g (snd c))) df) ls =
  (sel <- getitem_list df ls ;; Ok (map (fun c => (fst c, g (snd c))) sel)).
Proof.
  unfold getitem_list.
  rewrite (filter_ext (fun l => negb (has_column (map _ df) l))
                      (fun l => negb (has_column df l))).
  2:{ intro l. f_equal. apply has_column_labels.
      rewrite map_map. reflexivity. }
  destruct (filter _ ls) eqn:E; [|reflexivity].
  assert (Hp : forall l, In l ls -> has_column df l = true).
  { intros l Hl. destruct (has_column df l) eqn:Hc; [reflexivity|].
    assert (Hin : In l (filter (fun l0 => negb (has_column df l0)) ls)).
    { apply filter_In. split; [assumption | now rewrite Hc]. }
    rewrite E in Hin. destruct Hin. }
  clear E. induction ls as [|l ls IH]; [reflexivity|].
  simpl. rewrite getitem_map.
  destruct (getitem_present df l) as (s & Hs); [apply Hp; now left|].
  rewrite Hs. simpl. rewrite IH by (intros; apply Hp; now right).
  destruct (mapM (fun l0 => s1 <- getitem df l0 ;; Ok (l0, s1)) ls);
    reflexivity.
Qed.

Lemma calculate_fillna (df : Frame) (names : list string) (f : Frequency)
  (on : string) :
  calculate_cycle_flow_data (fillna (Timedelta 0) df) names f on =
  calculate_cycle_flow_data df names f on.
Proof.
  unfold calculate_cycle_flow_data, fillna at 1.
  rewrite getitem_list_map.
  destruct (getitem_list df _) as [sel|e]; [|reflexivity].
  simpl. fold (fillna (Timedelta 0) sel).
  now rewrite fillna_idem.
Qed.

(** ** Removing a row *)

Lemma delete_nth_map {A B} (g : A -> B) (i : nat) (l : list A) :
  delete_nth i (map g l) = map g (delete_nth i l).
Proof.
  revert i. induction l as [|x l IH]; intros [|i]; simpl; try reflexivity.
  now rewrite IH.
Qed.

Lemma select_mask_delete {A} (mask : list bool) (s : list A) (i : nat) :
  nth_error mask i = Some false ->
  select_mask (delete_nth i mask) (delete_nth i s) = select_mask mask s.
Proof.
  revert s i. induction mask as [|b m IH]; intros s i H.
  - destruct i; discriminate.
  - destruct i as [|i]; simpl in H.
    + injection H as ->. destruct s as [|c r]; simpl; [|reflexivity].
      destruct m; reflexivity.
    + destruct s as [|c r]; simpl; [reflexivity|].
      rewrite IH by assumption. reflexivity.
Qed.

Lemma masked_drop (s0 s : Series) (i : nat) (c : value) :
  nth_error s0 i = Some c -> missing_key c ->
  masked (delete_nth i s0) (delete_nth i s) = masked s0 s.
Proof.
  intros Hn Hc. unfold masked, series_ne, fillna_series.
  rewrite <- !delete_nth_map. apply select_mask_delete.
  rewrite map_map, nth_error_map, Hn. simpl.
  destruct Hc as [-> | ->]; reflexivity.
Qed.

Lemma calculate_drop_row (df : Frame) (names : list string) (f : Frequency)
  (on : string) (s0 : Series) (i : nat) (c : value) :
  getitem df on = Ok s0 -> nth_error s0 i = Some c -> missing_key c ->
  calculate_cycle_flow_data (drop_row i df) names f on =
  calculate_cycle_flow_data df names f on.
Proof.
  intros Hs Hn Hc.
  destruct (getitem_list df (duration_cols names)) as [rest|e] eqn:Hr.
  - rewrite (calculate_selected df names f on s0 rest Hs Hr).
    rewrite (calculate_selected (drop_row i df) names f on
               (delete_nth i s0) (drop_row i rest)).
    + rewrite (masked_drop s0 s0 i c Hn Hc).
      replace (masked_frame (delete_nth i s0) (drop_row i rest))
        with (masked_frame s0 rest); [reflexivity|].
      unfold masked_frame, drop_row. rewrite map_map. apply map_ext.
      intro a. simpl. now rewrite (masked_drop s0 (snd a) i c Hn Hc).
    + unfold drop_row. rewrite getitem_map, Hs. reflexivity.
    + unfold drop_row. rewrite getitem_list_map, Hr. reflexivity.
  - unfold calculate_cycle_flow_data, drop_row.
    rewrite getitem_list_map.
    destruct (getitem_list df (on :: duration_cols names)) as [sel|e'] eqn:E;
      [|reflexivity].
    apply getitem_list_cons in E. destruct E as (? & ? & _ & _ & E).
    congruence.
Qed.

(** ** The calendar frequencies have increasing labels *)

Ltac eval_guards :=
  repeat match goal with
         | |- context [if ?c then _ else _] =>
             let v := eval compute in c in change c with v; cbv iota
         end.

Lemma first_day_of_month_step (k : Z) :
  Calendar.first_day_of_month k < Calendar.first_day_of_month (k + 1).
Proof.
  unfold Calendar.first_day_of_month, Calendar.days_from_civil.
  assert (Hm : 0 <= k mod 12 < 12) by (apply Z.mod_pos_bound; lia).
  assert (Hk : k = 12 * (k / 12) + k mod 12) by (apply Z.div_mod; lia).
  set (y := k / 12) in *. set (m := k mod 12) in *.
  assert (C : (m < 11 /\ (k + 1) / 12 = y /\ (k + 1) mod 12 = m + 1) \/
              (m = 11 /\ (k + 1) / 12 = y + 1 /\ (k + 1) mod 12 = 0)).
  { destruct (Z.eq_dec m 11) as [E|E].
    - right. split; [assumption|]. split; symmetry.
      + apply (Z.div_unique (k + 1) 12 (y + 1) 0); lia.
      + apply (Z.mod_unique (k + 1) 12 (y + 1) 0); lia.
    - left. split; [lia|]. split; symmetry.
      + apply (Z.div_unique (k + 1) 12 y (m + 1)); lia.
      + apply (Z.mod_unique (k + 1) 12 y (m + 1)); lia. }
  destruct C as [(Hlt & -> & ->) | (-> & -> & ->)].
  - assert (Hc : m = 0 \/ m = 1 \/ m = 2 \/ m = 3 \/ m = 4 \/ m = 5 \/
                 m = 6 \/ m = 7 \/ m = 8 \/ m = 9 \/ m = 10) by lia.
    clearbody m y. clear Hk Hm Hlt.
    destruct Hc as [->|[->|[->|[->|[->|[->|[->|[->|[->|[->| ->]]]]]]]]]];
      eval_guards; Z.to_euclidean_division_equations; lia.
  - clearbody y. clear Hk Hm.
    eval_guards; Z.to_euclidean_division_equations; lia.
Qed.

Lemma first_day_of_month_mono (a b : Z) :
  a < b -> Calendar.first_day_of_month a < Calendar.first_day_of_month b.
Proof.
  intro H.
  replace b with (a + 1 + Z.of_nat (Z.to_nat (b - a - 1))) by lia.
  generalize (Z.to_nat (b - a - 1)) as n.
  induction n as [|n IH].
  - rewrite Z.add_0_r. apply first_day_of_month_step.
  - eapply Z.lt_trans; [exact IH|].
    replace (a + 1 + Z.of_nat (S n)) with (a + 1 + Z.of_nat n + 1) by lia.
    apply first_day_of_month_step.
Qed.

Lemma freq_1M_increasing : label_increasing freq_1M.
Proof.
  intros a b H. cbv [freq_1M label Calendar.month_end].
  assert (Calendar.first_day_of_month (a + 1) <
          Calendar.first_day_of_month (b + 1))
    by (apply first_day_of_month_mono; lia).
  apply Z.mul_lt_mono_pos_r; [apply Pos2Z.is_pos | lia].
Qed.

Lemma freq_1W_increasing : label_increasing freq_1W.
Proof.
  intros a b H. cbv [freq_1W label].
  apply Z.mul_lt_mono_pos_r; [apply Pos2Z.is_pos | lia].
Qed.

Lemma freq_1D_increasing : label_increasing freq_1D.
Proof.
  intros a b H. cbv [freq_1D label].
  apply Z.mul_lt_mono_pos_r; [apply Pos2Z.is_pos | lia].
Qed.

(** ** Every timestamp lies in the bin it is assigned to *)

(** A day lies in its month: on or after the first day of the month, before
    the first day of the next one. *)
Lemma civil_from_days_spec (z : Z) :
  let y := fst (Calendar.civil_from_days z) in
  let m := snd (Calendar.civil_from_days z) in
  1 <= m <= 12 /\
  Calendar.days_from_civil y m 1 <= z /\
  z < Calendar.days_from_civil (if m =? 12 then y + 1 else y)
                               (if m =? 12 then 1 else m + 1) 1.
Proof.
  unfold Calendar.civil_from_days, Calendar.days_from_civil.
  cbv zeta. cbn [fst snd].
  set (z' := z + 719468).
  set (era := z' / 146097).
  set (doe := z' - era * 146097).
  assert (Hdoe : 0 <= doe < 146097).
  { subst doe era. Z.to_euclidean_division_equations; lia. }
  assert (Hz : z = era * 146097 + doe - 719468) by (subst doe z'; lia).
  clearbody doe era. clear z'. subst z.
  set (yoe := (doe - doe / 1460 + doe / 36524 - doe / 146096) / 365).
  assert (Hy : 0 <= yoe <= 399 /\
     0 <= doe - (365 * yoe + yoe / 4 - yoe / 100) /\
     (doe - (365 * yoe + yoe / 4 - yoe / 100) <= 364 \/
      (doe - (365 * yoe + yoe / 4 - yoe / 100) = 365 /\
       (yoe + 1) mod 4 = 0 /\
       ((yoe + 1) mod 100 <> 0 \/ yoe = 399)))).
  { subst yoe. Z.to_euclidean_division_equations; lia. }
  set (doy := doe - (365 * yoe + yoe / 4 - yoe / 100)) in *.
  assert (Hd : doe = 365 * yoe + yoe / 4 - yoe / 100 + doy)
    by (subst doy; lia).
  clearbody doy yoe. subst doe.
  set (mp := (5 * doy + 2) / 153).
  assert (Hmp : 0 <= mp <= 11 /\ (153 * mp + 2) / 5 <= doy /\
                (mp < 11 -> doy < (153 * (mp + 1) + 2) / 5)).
  { subst mp. Z.to_euclidean_division_equations; lia. }
  clearbody mp.
  assert (C : mp = 0 \/ mp = 1 \/ mp = 2 \/ mp = 3 \/ mp = 4 \/ mp = 5 \/
              mp = 6 \/ mp = 7 \/ mp = 8 \/ mp = 9 \/ mp = 10 \/ mp = 11)
    by lia.
  destruct C as [->|[->|[->|[->|[->|[->|[->|[->|[->|[->|[->| ->]]]]]]]]]]];
    eval_guards; Z.to_euclidean_division_equations; lia.
Qed.

Lemma month_of_bin (t : Z) :
  Calendar.first_day_of_month (Calendar.month_of t) * Z.pos day_ns <= t /\
  t < Calendar.first_day_of_month (Calendar.month_of t + 1) * Z.pos day_ns.
Proof.
  unfold Calendar.month_of, Calendar.first_day_of_month.
  pose proof (civil_from_days_spec (t / Z.pos day_ns)) as H.
  destruct (Calendar.civil_from_days (t / Z.pos day_ns)) as [y m].
  cbn [fst snd] in H. destruct H as (Hm & Hlo & Hhi).
  assert (E1 : (12 * y + (m - 1)) / 12 = y)
    by (symmetry; apply (Z.div_unique _ 12 y (m - 1)); lia).
  assert (E2 : (12 * y + (m - 1)) mod 12 + 1 = m)
    by (rewrite <- (Z.mod_unique _ 12 y (m - 1)); lia).
  rewrite E1, E2.
  assert (E3 : (12 * y + (m - 1) + 1) / 12 = if m =? 12 then y + 1 else y).
  { destruct (Z.eqb_spec m 12) as [->|Hn]; symmetry.
    - apply (Z.div_unique _ 12 (y + 1) 0); lia.
    - apply (Z.div_unique _ 12 y m); lia. }
  assert (E4 : (12 * y + (m - 1) + 1) mod 12 + 1 =
               if m =? 12 then 1 else m + 1).
  { destruct (Z.eqb_spec m 12) as [->|Hn].
    - rewrite <- (Z.mod_unique _ 12 (y + 1) 0); lia.
    - rewrite <- (Z.mod_unique _ 12 y m); lia. }
  rewrite E3, E4.
  set (lo := Calendar.days_from_civil y m 1) in *.
  set (hi := Calendar.days_from_civil (if m =? 12 then y + 1 else y)
               (if m =? 12 then 1 else m + 1) 1) in *.
  clearbody lo hi. clear E1 E2 E3 E4.
  change (Z.pos day_ns) with 86400000000000 in *.
  Z.to_euclidean_division_equations; lia.
Qed.

(** The bin of a month runs from the end of the last day of the month
    before to the end of the day that labels it. *)
Lemma freq_1M_bin (t : Z) :
  label freq_1M (bucket freq_1M t - 1) + Z.pos day_ns <= t /\
  t < label freq_1M (bucket freq_1M t) + Z.pos day_ns.
Proof.
  cbv [freq_1M label bucket Calendar.month_end].
  replace (Calendar.month_of t - 1 + 1) with (Calendar.month_of t) by lia.
  pose proof (month_of_bin t) as [H1 H2].
  change (Z.pos day_ns) with 86400000000000 in *.
  lia.
Qed.

Lemma freq_1W_bin (t : Z) :
  label freq_1W (bucket freq_1W t - 1) + Z.pos day_ns <= t /\
  t < label freq_1W (bucket freq_1W t) + Z.pos day_ns.
Proof.
  cbv [freq_1W label bucket].
  change (Z.pos day_ns) with 86400000000000.
  Z.to_euclidean_division_equations; lia.
Qed.

(** The bin of a day starts at the midnight that labels it. *)
Lemma freq_1D_bin (t : Z) :
  label freq_1D (bucket freq_1D t) <= t /\
  t < label freq_1D (bucket freq_1D t) + Z.pos day_ns.
Proof.
  cbv [freq_1D label bucket].
  change (Z.pos day_ns) with 86400000000000.
  Z.to_euclidean_division_equations; lia.
Qed.

(** The last instant of February 2020 is in the bin labelled 2020-02-29,
    the next one in the bin labelled 2020-03-31; 1900 is not a leap year,
    2000 is one. *)
Example month_bins :
  label freq_1M (bucket freq_1M (date 2020 2 29 + Z.pos day_ns - 1)) =
    date 2020 2 29 /\
  label freq_1M (bucket freq_1M (date 2020 3 1)) = date 2020 3 31 /\
  label freq_1M (bucket freq_1M (date 1900 2 10)) = date 1900 2 28 /\
  label freq_1M (bucket freq_1M (date 2000 2 10)) = date 2000 2 29 /\
  label freq_1M (bucket freq_1M (date 1969 12 31)) = date 1969 12 31 /\
  date 1970 1 1 = 0.
Proof. vm_compute. repeat split; reflexivity. Qed.

(** 2020-02-15 is a Saturday: its week ends on Sunday 2020-02-16, and the
    Monday after belongs to the week that ends on 2020-02-23. *)
Example week_bins :
  label freq_1W (bucket freq_1W (date 2020 2 15)) = date 2020 2 16 /\
  label freq_1W (bucket freq_1W (date 2020 2 16)) = date 2020 2 16 /\
  label freq_1W (bucket freq_1W (date 2020 2 17)) = date 2020 2 23.
Proof. vm_compute. repeat split; reflexivity. Qed.

(** ** The result depends on a frequency through its values only *)

Lemma resample_sum_ext (f f' : Frequency) (on : string) (df : Frame) :
  (forall t, bucket f t = bucket f' t) ->
  (forall k, label f k = label f' k) ->
  resample_sum f on df = resample_sum f' on df.
Proof.
  intros Hb Hl. unfold resample_sum.
  destruct (getitem df on) as [keys|e]; [|reflexivity]. simpl.
  destruct (as_timestamps keys) as [ts|e]; [|reflexivity]. simpl.
  rewrite (map_ext _ _ Hb ts).
  now rewrite (map_ext _ _ Hl).
Qed.

Lemma calculate_ext (df : Frame) (names : list string) (f f' : Frequency)
  (on : string) :
  (forall t, bucket f t = bucket f' t) ->
  (forall k, label f k = label f' k) ->
  calculate_cycle_flow_data df names f on =
  calculate_cycle_flow_data df names f' on.
Proof.
  intros Hb Hl. unfold calculate_cycle_flow_data.
  destruct (getitem_list df _) as [sel|e]; [|reflexivity]. simpl.
  destruct (getitem _ on) as [keys|e]; [|reflexivity]. simpl.
  destruct (empty _); [reflexivity|].
  now rewrite (resample_sum_ext f f' on _ Hb Hl).
Qed.

(** * Properties of the aggregator *)

(** C1: two items with stages Dev and QA, completed on 2020-02-15 (Dev one
    day, QA half a day) and on 2020-02-20 (Dev two days, QA missing),
    aggregated by month, give one row, for February 2020, with Dev = 3.0 and
    QA = 0.5, the columns in the order Dev duration, QA duration. *)
Theorem two_items_february_2020 :
  calculate_cycle_flow_data two_items ["Dev"; "QA"]%string freq_1M
                            "completed_timestamp" =
  Ok (Some (mkDataFrame
              [date 2020 2 29]
              [ ("Dev duration", [Float (3 # 1)]);
                ("QA duration", [Float (1 # 2)]) ]%string)).
Proof. vm_compute. reflexivity. Qed.

(** C2: a row with a timestamp and a missing duration in a stage is neither
    dropped nor an error; the missing duration counts for exactly zero in the
    total of its bin, and the other durations of the row count as they are.
    The result is the row-by-row aggregate, in which a missing duration adds
    nothing, and it is the result for the table in which every missing cell
    holds the zero duration. *)
Theorem missing_duration_counts_as_zero (df : Frame) (names : list string)
  (f : Frequency) (on : string) (s0 : Series) (rest : Frame) :
  getitem df on = Ok s0 ->
  getitem_list df (duration_cols names) = Ok rest ->
  NoDup (duration_cols names) ->
  ~ In on (duration_cols names) ->
  forallb key_cell_ok s0 = true ->
  forallb (fun c => stage_cells_ok s0 (snd c)) rest = true ->
  valid_stamps s0 <> [] ->
  calculate_cycle_flow_data df names f on = Ok (Some (period_table f s0 rest))
  /\ calculate_cycle_flow_data (fillna (Timedelta 0) df) names f on =
     calculate_cycle_flow_data df names f on.
Proof.
  intros. split; [now apply calculate_ok | apply calculate_fillna].
Qed.

Lemma missing_duration_counts_as_zero_witness :
  calculate_cycle_flow_data one_item ["A"; "B"]%string freq_1M
                            "completed_timestamp" =
  Ok (Some (mkDataFrame
              [date 2020 2 29]
              [ ("A duration", [Float (2 # 1)]);
                ("B duration", [Float (0 # 1)]) ]%string))
  /\ calculate_cycle_flow_data (fillna (Timedelta 0) one_item)
       ["A"; "B"]%string freq_1M "completed_timestamp" =
     calculate_cycle_flow_data one_item ["A"; "B"]%string freq_1M
                               "completed_timestamp".
Proof.
  refine (missing_duration_counts_as_zero one_item ["A"; "B"]%string freq_1M
            "completed_timestamp"
            [Timestamp (date 2020 2 15)]
            [ ("A duration", [Timedelta (days 2)]);
              ("B duration", [NA]) ]%string
            _ _ _ _ _ _ _).
  - reflexivity.
  - reflexivity.
  - apply nodupb_NoDup. reflexivity.
  - simpl. intros [H|[H|[]]]; discriminate.
  - reflexivity.
  - reflexivity.
  - simpl. discriminate.
Defined.

(** C3: a row whose bucketing timestamp is missing, or is the zero-length
    sentinel, adds nothing to any bin: the result is that of the table
    without the row.  When every row is such a row, the result is the
    no-data value [None], neither a table nor an error.  The bucketing
    column is a column of the table other than the stage columns, and the
    stage columns exist. *)
Theorem rows_without_timestamp_contribute_nothing (df : Frame)
  (names : list string) (f : Frequency) (on : string) (s0 : Series) :
  getitem df on = Ok s0 ->
  ~ In on (duration_cols names) ->
  (forall name, In name names ->
                In (name ++ " duration")%string (map fst df)) ->
  (forall i c, nth_error s0 i = Some c -> missing_key c ->
     calculate_cycle_flow_data (drop_row i df) names f on =
     calculate_cycle_flow_data df names f on)
  /\ (Forall missing_key s0 ->
      calculate_cycle_flow_data df names f on = Ok None).
Proof.
  intros Hs _ Hp. split.
  - intros i c Hn Hc. eapply calculate_drop_row; eauto.
  - intro Hall.
    destruct (getitem_list_present df (duration_cols names)) as (rest & Hr).
    { intros l Hl. apply in_map_iff in Hl. destruct Hl as (n & <- & Hn).
      now apply Hp. }
    eapply calculate_None; eauto.
    now apply masked_no_stamp.
Qed.

Lemma rows_without_timestamp_contribute_nothing_witness :
  calculate_cycle_flow_data (drop_row 0 no_dates) ["Dev"]%string freq_1M
                            "completed_timestamp" =
  calculate_cycle_flow_data no_dates ["Dev"]%string freq_1M
                            "completed_timestamp"
  /\ calculate_cycle_flow_data no_dates ["Dev"]%string freq_1M
                               "completed_timestamp" = Ok None.
Proof.
  destruct (rows_without_timestamp_contribute_nothing no_dates
              ["Dev"]%string freq_1M "completed_timestamp"
              [NA; Timedelta 0]) as [Hrow Hall].
  - reflexivity.
  - simpl. intros [H|[]]. discriminate.
  - simpl. intros name [<-|[]]. right. left. reflexivity.
  - split.
    + apply (Hrow O NA); [reflexivity | left; reflexivity].
    + apply Hall.
      constructor; [left; reflexivity|].
      constructor; [right; reflexivity | constructor].
Defined.

(** C4: when some name of [cycle_names] has no duration column in the
    table, the aggregator fails with the missing-column error, which names
    that column.  The failure is decided by the labels of the table alone,
    before any row is read: every table with the same labels fails the
    same way, and the result is never [None] nor a table. *)
Theorem missing_stage_column_raises (df : Frame) (names : list string)
  (f : Frequency) (on : string) (name : string) :
  In name names ->
  ~ In (name ++ " duration")%string (map fst df) ->
  exists missing,
    In (name ++ " duration")%string missing /\
    forall df', map fst df' = map fst df ->
      calculate_cycle_flow_data df' names f on = Raise (KeyError missing).
Proof.
  intros Hin Hno.
  set (absent := fun d : Frame => fun l => negb (has_column d l)).
  exists (filter (absent df) (on :: duration_cols names)).
  assert (Hm : In (name ++ " duration")%string
                  (filter (absent df) (on :: duration_cols names))).
  { apply filter_In. split.
    - right. apply in_map_iff. eauto.
    - unfold absent. destruct (has_column df _) eqn:E; [|reflexivity].
      apply has_column_In in E. contradiction. }
  split; [assumption|].
  intros df' Hl. unfold calculate_cycle_flow_data, getitem_list.
  fold (absent df').
  rewrite (filter_ext (absent df') (absent df)).
  - destruct (filter (absent df) (on :: duration_cols names));
      [destruct Hm | reflexivity].
  - intro l. unfold absent. f_equal. now apply has_column_labels.
Qed.

Lemma missing_stage_column_raises_witness :
  exists missing,
    In "X duration"%string missing /\
    forall df', map fst df' = map fst two_items ->
      calculate_cycle_flow_data df' ["Dev"; "X"]%string freq_1M
                                "completed_timestamp" =
      Raise (KeyError missing).
Proof.
  apply (missing_stage_column_raises two_items ["Dev"; "X"]%string freq_1M
           "completed_timestamp" "X"%string).
  - simpl. right. left. reflexivity.
  - simpl. intros [H|[H|[H|[H|[]]]]]; discriminate.
Defined.

(** C5: whenever the aggregator returns a table, its columns are the
    duration columns of the names of [cycle_names], one for each name, in the
    order of [cycle_names]; none is left out, whatever its totals. *)
Theorem columns_follow_cycle_names (df : Frame) (names : list string)
  (f : Frequency) (on : string) (t : DataFrame) :
  calculate_cycle_flow_data df names f on = Ok (Some t) ->
  map fst (columns t) = duration_cols names.
Proof.
  intro H. apply calculate_Some_inv in H.
  destruct H as (s0 & rest & _ & Hr & _ & _ & _ & _ & ->).
  unfold period_table. simpl. rewrite map_map. simpl.
  eapply getitem_list_labels; eauto.
Qed.

Lemma columns_follow_cycle_names_witness :
  map fst
    [ ("QA duration", [Float (1 # 2)]);
      ("Dev duration", [Float (3 # 1)]) ]%string =
  duration_cols ["QA"; "Dev"]%string.
Proof.
  apply (columns_follow_cycle_names two_items ["QA"; "Dev"]%string freq_1M
           "completed_timestamp"
           (mkDataFrame [date 2020 2 29]
              [ ("QA duration", [Float (1 # 2)]);
                ("Dev duration", [Float (3 # 1)]) ]%string)).
  vm_compute. reflexivity.
Defined.

(** C6: the value of a stage in a bin is the sum of the durations of the
    bin divided by one day; a sum of exactly 36 hours gives exactly 1.5. *)
Theorem summed_durations_in_days (df : Frame) (names : list string)
  (f : Frequency) (on : string) (t : DataFrame) (name : string)
  (s0 s : Series) (i : nat) (k : Z) :
  calculate_cycle_flow_data df names f on = Ok (Some t) ->
  In name names ->
  getitem df on = Ok s0 ->
  getitem df (name ++ " duration")%string = Ok s ->
  nth_error (bins (map (bucket f) (valid_stamps s0))) i = Some k ->
  nth_error (index t) i = Some (label f k) /\
  cell t (name ++ " duration")%string i =
    Some (Float (Qred (bucket_total f s0 s k # day_ns))) /\
  (bucket_total f s0 s k = hours 36 ->
   cell t (name ++ " duration")%string i = Some (Float (3 # 2))).
Proof.
  intros H Hin Hs0 Hs Hk. apply calculate_Some_inv in H.
  destruct H as (s0' & rest & Hs0' & Hr & _ & _ & _ & _ & ->).
  assert (s0' = s0) as -> by congruence.
  assert (Hc : cell (period_table f s0 rest) (name ++ " duration")%string i =
               Some (to_days (bucket_total f s0 s k))).
  { rewrite (period_table_cell f s0 s).
    - now rewrite Hk.
    - rewrite (getitem_list_getitem df (duration_cols names)); auto.
      apply in_map_iff. eauto. }
  split; [|split].
  - unfold period_table. simpl. rewrite nth_error_map, Hk. reflexivity.
  - exact Hc.
  - intro E. rewrite Hc, E. reflexivity.
Qed.

Lemma summed_durations_in_days_witness :
  nth_error [date 2020 2 29] 0 = Some (label freq_1M 24241) /\
  cell (mkDataFrame [date 2020 2 29]
          [("Dev duration", [Float (3 # 2)])]%string)
       "Dev duration"%string 0 =
    Some (Float (Qred (hours 36 # day_ns))) /\
  (hours 36 = hours 36 ->
   cell (mkDataFrame [date 2020 2 29]
           [("Dev duration", [Float (3 # 2)])]%string)
        "Dev duration"%string 0 = Some (Float (3 # 2))).
Proof.
  apply (summed_durations_in_days day_and_a_half ["Dev"]%string freq_1M
           "completed_timestamp"
           (mkDataFrame [date 2020 2 29]
              [("Dev duration", [Float (3 # 2)])]%string)
           "Dev"%string
           [Timestamp (date 2020 2 10); Timestamp (date 2020 2 11)]
           [Timedelta (hours 12); Timedelta (hours 24)]
           O 24241).
  - vm_compute. reflexivity.
  - simpl. left. reflexivity.
  - reflexivity.
  - reflexivity.
  - vm_compute. reflexivity.
Defined.

(** C7, as stated, fails: with one item in January 2020 and one in March
    2020 the table has a row for February, a month without any item. *)
Lemma empty_month_has_a_row :
  exists t,
    calculate_cycle_flow_data gap_items ["Dev"]%string freq_1M
                              "completed_timestamp" = Ok (Some t) /\
    index t = [date 2020 1 31; date 2020 2 29; date 2020 3 31] /\
    ~ only_populated_buckets freq_1M
        [Timestamp (date 2020 1 10); Timestamp (date 2020 3 5)] t.
Proof.
  eexists. split; [vm_compute; reflexivity|]. split; [reflexivity|].
  intro H. destruct (H (date 2020 2 29)) as (ts & Hin & E).
  - simpl. right. left. reflexivity.
  - destruct Hin as [Hin|[Hin|[]]]; injection Hin as <-;
      vm_compute in E; discriminate.
Qed.

(** C7, amended: the table has exactly one row for every bin from the bin
    of the earliest bucketing timestamp to the bin of the latest one, in
    ascending order of period; every bin that holds an item is among them,
    and a bin of that range in which no timestamp falls is present, with 0.0
    in every stage column. *)
Theorem rows_cover_the_range_of_bins (df : Frame) (names : list string)
  (f : Frequency) (on : string) (t : DataFrame) (s0 : Series) :
  label_increasing f ->
  calculate_cycle_flow_data df names f on = Ok (Some t) ->
  getitem df on = Ok s0 ->
  exists lo hi,
    index t = map (label f) (zrange lo hi) /\
    (exists a, In (Timestamp a) s0 /\ bucket f a = lo) /\
    (exists b, In (Timestamp b) s0 /\ bucket f b = hi) /\
    (forall ts, In (Timestamp ts) s0 -> lo <= bucket f ts <= hi) /\
    StronglySorted Z.lt (index t) /\
    (forall name s i k,
        In name names ->
        getitem df (name ++ " duration")%string = Ok s ->
        nth_error (zrange lo hi) i = Some k ->
        (forall ts, In (Timestamp ts) s0 -> bucket f ts <> k) ->
        cell t (name ++ " duration")%string i = Some (Float 0)).
Proof.
  intros Hf H Hs0. apply calculate_Some_inv in H.
  destruct H as (s0' & rest & Hs0' & Hr & _ & _ & Hv & _ & ->).
  assert (s0' = s0) as -> by congruence.
  destruct (bins_spec (map (bucket f) (valid_stamps s0)))
    as (lo & hi & Eb & Hlo & Hhi & Hall).
  { destruct (valid_stamps s0); [contradiction | discriminate]. }
  exists lo, hi. unfold period_table. simpl. rewrite Eb.
  split; [reflexivity|].
  split.
  { apply in_map_iff in Hlo. destruct Hlo as (a & E & Ha).
    exists a. split; [now apply valid_stamps_In | assumption]. }
  split.
  { apply in_map_iff in Hhi. destruct Hhi as (b & E & Hb).
    exists b. split; [now apply valid_stamps_In | assumption]. }
  split.
  { intros ts Hts. apply Hall. apply in_map. now apply valid_stamps_In. }
  split.
  { now apply zrange_sorted_by. }
  intros name s i k Hin Hs Hk Hnone.
  pose proof (period_table_cell f s0 s rest (name ++ " duration")%string i)
    as Hc.
  unfold period_table in Hc. simpl in Hc. rewrite Eb in Hc.
  rewrite Hc.
  - rewrite Hk. simpl. rewrite bucket_total_empty_bin; [reflexivity|].
    intros ts Hts. apply Hnone. now apply valid_stamps_In.
  - rewrite (getitem_list_getitem df (duration_cols names)); auto.
    apply in_map_iff. eauto.
Qed.

Lemma rows_cover_the_range_of_bins_witness :
  exists lo hi,
    [date 2020 1 31; date 2020 2 29; date 2020 3 31] =
      map (label freq_1M) (zrange lo hi) /\
    (exists a, In (Timestamp a)
                 [Timestamp (date 2020 1 10); Timestamp (date 2020 3 5)] /\
               bucket freq_1M a = lo) /\
    (exists b, In (Timestamp b)
                 [Timestamp (date 2020 1 10); Timestamp (date 2020 3 5)] /\
               bucket freq_1M b = hi) /\
    (forall ts, In (Timestamp ts)
                  [Timestamp (date 2020 1 10); Timestamp (date 2020 3 5)] ->
                lo <= bucket freq_1M ts <= hi) /\
    StronglySorted Z.lt [date 2020 1 31; date 2020 2 29; date 2020 3 31] /\
    (forall name s i k,
        In name ["Dev"]%string ->
        getitem gap_items (name ++ " duration")%string = Ok s ->
        nth_error (zrange lo hi) i = Some k ->
        (forall ts, In (Timestamp ts)
                      [Timestamp (date 2020 1 10); Timestamp (date 2020 3 5)] ->
                    bucket freq_1M ts <> k) ->
        cell (mkDataFrame
                [date 2020 1 31; date 2020 2 29; date 2020 3 31]
                [("Dev duration",
                  [Float (1 # 1); Float (0 # 1); Float (2 # 1)])]%string)
             (name ++ " duration")%string i = Some (Float 0)).
Proof.
  apply (rows_cover_the_range_of_bins gap_items ["Dev"]%string freq_1M
           "completed_timestamp"
           (mkDataFrame
              [date 2020 1 31; date 2020 2 29; date 2020 3 31]
              [("Dev duration",
                [Float (1 # 1); Float (0 # 1); Float (2 # 1)])]%string)
           [Timestamp (date 2020 1 10); Timestamp (date 2020 3 5)]).
  - exact freq_1M_increasing.
  - vm_compute. reflexivity.
  - reflexivity.
Defined.

(** C8: the aggregation is a function of its arguments: two calls with the
    same table, the same names, the same bucketing column and frequencies
    that bin and label alike return the same result, be it a table, [None]
    or an error. *)
Theorem aggregation_is_deterministic (df df' : Frame)
  (names names' : list string) (f f' : Frequency) (on on' : string) :
  df = df' -> names = names' -> on = on' ->
  (forall t, bucket f t = bucket f' t) ->
  (forall k, label f k = label f' k) ->
  calculate_cycle_flow_data df names f on =
  calculate_cycle_flow_data df' names' f' on'.
Proof.
  intros -> -> -> Hb Hl. now apply calculate_ext.
Qed.

Lemma aggregation_is_deterministic_witness :
  calculate_cycle_flow_data two_items ["Dev"; "QA"]%string freq_1M
                            "completed_timestamp" =
  calculate_cycle_flow_data two_items ["Dev"; "QA"]%string
    (mkFrequency Calendar.month_of Calendar.month_end)
    "completed_timestamp".
Proof.
  apply (aggregation_is_deterministic two_items two_items
           ["Dev"; "QA"]%string ["Dev"; "QA"]%string
           freq_1M (mkFrequency Calendar.month_of Calendar.month_end)
           "completed_timestamp" "completed_timestamp");
    reflexivity.
Defined.

(** C9: with an empty [cycle_names] and a table in which some row has a
    bucketing timestamp, the result is a table that has its index of periods
    and no column; it is neither an error nor [None]. *)
Theorem no_cycle_names_gives_the_index_only (df : Frame) (f : Frequency)
  (on : string) (s0 : Series) :
  getitem df on = Ok s0 ->
  forallb key_cell_ok s0 = true ->
  (exists ts, In (Timestamp ts) s0) ->
  exists idx,
    idx <> [] /\
    calculate_cycle_flow_data df [] f on = Ok (Some (mkDataFrame idx [])).
Proof.
  intros Hs Hk (ts & Hts).
  assert (Hv : valid_stamps s0 <> []).
  { apply valid_stamps_In in Hts. intro E. rewrite E in Hts. destruct Hts. }
  exists (map (label f) (bins (map (bucket f) (valid_stamps s0)))).
  split.
  - intro E. apply map_eq_nil in E. revert E. apply bins_nonempty.
    intro E. apply map_eq_nil in E. contradiction.
  - rewrite (calculate_ok df [] f on s0 []); auto.
    + constructor.
Qed.

Lemma no_cycle_names_gives_the_index_only_witness :
  exists idx,
    idx <> [] /\
    calculate_cycle_flow_data two_items [] freq_1M "completed_timestamp" =
    Ok (Some (mkDataFrame idx [])).
Proof.
  apply (no_cycle_names_gives_the_index_only two_items freq_1M
           "completed_timestamp"
           [Timestamp (date 2020 2 15); Timestamp (date 2020 2 20)]).
  - reflexivity.
  - reflexivity.
  - exists (date 2020 2 15). left. reflexivity.
Defined.

(** C10: a table returned by the aggregator has at least one row, and each
    of its columns has one cell for each row; the result is never a table
    without rows, so the test of [write_chart] for such a table is false
    on it. *)
Theorem returned_table_has_a_row (df : Frame) (names : list string)
  (f : Frequency) (on : string) (t : DataFrame) :
  calculate_cycle_flow_data df names f on = Ok (Some t) ->
  (1 <= List.length (index t))%nat /\
  cannot_draw t = false /\
  Forall (fun c => List.length (snd c) = List.length (index t)) (columns t).
Proof.
  intro H. apply calculate_Some_inv in H.
  destruct H as (s0 & rest & _ & _ & _ & _ & Hv & _ & ->).
  assert (Hb : bins (map (bucket f) (valid_stamps s0)) <> []).
  { apply bins_nonempty. intro E. apply map_eq_nil in E. contradiction. }
  unfold period_table, cannot_draw. simpl. rewrite length_map.
  split; [|split].
  - destruct (bins _); [contradiction | simpl; lia].
  - destruct (bins _); [contradiction | reflexivity].
  - apply Forall_forall. intros c Hc. apply in_map_iff in Hc.
    destruct Hc as (c' & <- & _). simpl. now rewrite length_map.
Qed.

Lemma returned_table_has_a_row_witness :
  (1 <= List.length [date 2020 2 29])%nat /\
  cannot_draw (mkDataFrame [date 2020 2 29]
                 [ ("Dev duration", [Float (3 # 1)]);
                   ("QA duration", [Float (1 # 2)]) ]%string) = false /\
  Forall (fun c => List.length (snd c) = List.length [date 2020 2 29])
    [ ("Dev duration", [Float (3 # 1)]);
      ("QA duration", [Float (1 # 2)]) ]%string.
Proof.
  apply (returned_table_has_a_row two_items ["Dev"; "QA"]%string freq_1M
           "completed_timestamp"
           (mkDataFrame [date 2020 2 29]
              [ ("Dev duration", [Float (3 # 1)]);
                ("QA duration", [Float (1 # 2)]) ]%string)).
  vm_compute. reflexivity.
Defined.

(** * Further properties of the module *)

(** ** What the selection reads *)

Lemma has_column_getitem (df : Frame) (l : string) :
  has_column df l = match getitem df l with Ok _ => true | Raise _ => false end.
Proof.
  induction df as [|[n s] df IH]; simpl; [reflexivity|].
  destruct (String.eqb n l); [reflexivity | exact IH].
Qed.

Lemma getitem_list_agree (df df' : Frame) (ls : list string) :
  (forall l, In l ls -> getitem df' l = getitem df l) ->
  getitem_list df' ls = getitem_list df ls.
Proof.
  intro H. unfold getitem_list.
  rewrite (filter_ext_in (fun l => negb (has_column df' l))
                         (fun l => negb (has_column df l))).
  2:{ intros l Hl. now rewrite !has_column_getitem, H. }
  destruct (filter _ ls); [|reflexivity].
  apply mapM_ext_in. intros l Hl. now rewrite H.
Qed.

(** X1: when the table has no column named [resample_on], the aggregator
    fails with the missing-column error, and the error names that column. *)
Theorem missing_bucketing_column_raises (df : Frame) (names : list string)
  (f : Frequency) (on : string) :
  ~ In on (map fst df) ->
  exists missing,
    In on missing /\
    calculate_cycle_flow_data df names f on = Raise (KeyError missing).
Proof.
  intro Hno.
  set (absent := fun l => negb (has_column df l)).
  exists (filter absent (on :: duration_cols names)).
  assert (Hm : In on (filter absent (on :: duration_cols names))).
  { apply filter_In. split; [now left|]. unfold absent.
    destruct (has_column df on) eqn:E; [|reflexivity].
    apply has_column_In in E. contradiction. }
  split; [assumption|].
  unfold calculate_cycle_flow_data, getitem_list. fold absent.
  destruct (filter absent (on :: duration_cols names));
    [destruct Hm | reflexivity].
Qed.

Lemma missing_bucketing_column_raises_witness :
  exists missing,
    In "started_timestamp"%string missing /\
    calculate_cycle_flow_data two_items ["Dev"]%string freq_1M
                              "started_timestamp" =
    Raise (KeyError missing).
Proof.
  apply (missing_bucketing_column_raises two_items ["Dev"]%string freq_1M
           "started_timestamp"%string).
  simpl. intros [H|[H|[H|[H|[]]]]]; discriminate.
Defined.

(** X2: the aggregator reads the bucketing column and the duration columns
    of the names it is given, and nothing else: two tables that hold the
    same series under these labels give the same result, whatever their
    other columns and whatever the order of their columns. *)
Theorem only_selected_columns_matter (df df' : Frame) (names : list string)
  (f : Frequency) (on : string) :
  (forall l, In l (on :: duration_cols names) ->
             getitem df' l = getitem df l) ->
  calculate_cycle_flow_data df' names f on =
  calculate_cycle_flow_data df names f on.
Proof.
  intro H. unfold calculate_cycle_flow_data.
  now rewrite (getitem_list_agree df df' _ H).
Qed.

Lemma only_selected_columns_matter_witness :
  calculate_cycle_flow_data
    [ ("QA duration", [Timedelta (hours 12); NA]);
      ("Dev duration", [Timedelta (days 1); Timedelta (days 2)]);
      ("completed_timestamp",
         [Timestamp (date 2020 2 15); Timestamp (date 2020 2 20)]) ]%string
    ["Dev"; "QA"]%string freq_1M "completed_timestamp" =
  calculate_cycle_flow_data two_items ["Dev"; "QA"]%string freq_1M
                            "completed_timestamp".
Proof.
  apply (only_selected_columns_matter two_items).
  simpl. intros l [<-|[<-|[<-|[]]]]; reflexivity.
Defined.

(** ** When the result is [None], and when it is a table *)

Lemma masked_nil_missing (s0 : Series) :
  masked s0 s0 = [] -> Forall missing_key s0.
Proof.
  unfold masked. induction s0 as [|c s0 IH]; simpl; intro H; [constructor|].
  destruct c as [|t|d|x|s]; simpl in H; try discriminate.
  - constructor; [now left | auto].
  - destruct (Z.eqb_spec d 0) as [->|Hd]; simpl in H; [|discriminate].
    constructor; [now right | auto].
Qed.

Lemma convert_and_order_not_None (dcols : list string)
  (sampled : DataFrame) :
  convert_and_order dcols sampled <> Ok None.
Proof.
  unfold convert_and_order. intro H.
  inv_bind H. inv_bind H. destruct (nodupb dcols); discriminate.
Qed.

(** X3: [None] is returned only when no row has a bucketing timestamp:
    every cell of the bucketing column is then missing or the zero-length
    sentinel. *)
Theorem none_only_without_timestamps (df : Frame) (names : list string)
  (f : Frequency) (on : string) (s0 : Series) :
  calculate_cycle_flow_data df names f on = Ok None ->
  getitem df on = Ok s0 ->
  Forall missing_key s0.
Proof.
  intros H Hs. pose proof H as H0.
  unfold calculate_cycle_flow_data in H0. inv_bind H0. clear H0.
  apply getitem_list_cons in E. destruct E as (s0' & rest & -> & Hs' & Hr).
  assert (s0' = s0) as -> by congruence.
  rewrite (calculate_selected df names f on s0 rest Hs Hr) in H.
  destruct (Nat.eqb (List.length (masked s0 s0)) 0) eqn:En.
  - apply Nat.eqb_eq in En. apply masked_nil_missing.
    now destruct (masked s0 s0).
  - inv_bind H. now apply convert_and_order_not_None in H.
Qed.

Lemma none_only_without_timestamps_witness :
  Forall missing_key [NA; Timedelta 0].
Proof.
  apply (none_only_without_timestamps no_dates ["Dev"]%string freq_1M
           "completed_timestamp").
  - vm_compute. reflexivity.
  - reflexivity.
Defined.

(** X4: a table is returned only for stage names that are pairwise
    distinct: a repeated name never yields a table. *)
Theorem table_only_for_distinct_names (df : Frame) (names : list string)
  (f : Frequency) (on : string) (t : DataFrame) :
  calculate_cycle_flow_data df names f on = Ok (Some t) ->
  NoDup names.
Proof.
  intro H. apply calculate_Some_inv in H.
  destruct H as (s0 & rest & _ & _ & Hn & _).
  unfold duration_cols in Hn. now apply NoDup_map_inv in Hn.
Qed.

Lemma table_only_for_distinct_names_witness :
  NoDup ["Dev"; "QA"]%string.
Proof.
  apply (table_only_for_distinct_names two_items ["Dev"; "QA"]%string
           freq_1M "completed_timestamp"
           (mkDataFrame [date 2020 2 29]
              [ ("Dev duration", [Float (3 # 1)]);
                ("QA duration", [Float (1 # 2)]) ]%string)).
  vm_compute. reflexivity.
Defined.

(** X5: a returned table holds no missing value: every cell of every column
    is a number. *)
Theorem table_cells_are_numbers (df : Frame) (names : list string)
  (f : Frequency) (on : string) (t : DataFrame) :
  calculate_cycle_flow_data df names f on = Ok (Some t) ->
  Forall (fun c => Forall is_number (snd c)) (columns t).
Proof.
  intro H. apply calculate_Some_inv in H.
  destruct H as (s0 & rest & _ & _ & _ & _ & _ & _ & ->).
  unfold period_table. simpl.
  apply Forall_forall. intros c Hc. apply in_map_iff in Hc.
  destruct Hc as (c' & <- & _). simpl.
  apply Forall_forall. intros v Hv. apply in_map_iff in Hv.
  destruct Hv as (k & <- & _). unfold to_days, is_number. eauto.
Qed.

Lemma table_cells_are_numbers_witness :
  Forall (fun c => Forall is_number (snd c))
    [ ("A duration", [Float (2 # 1)]);
      ("B duration", [Float (0 # 1)]) ]%string.
Proof.
  apply (table_cells_are_numbers one_item ["A"; "B"]%string freq_1M
           "completed_timestamp"
           (mkDataFrame [date 2020 2 29]
              [ ("A duration", [Float (2 # 1)]);
                ("B duration", [Float (0 # 1)]) ]%string)).
  vm_compute. reflexivity.
Defined.

(** ** Totals *)

Lemma zrange_NoDup (lo hi : Z) : NoDup (zrange lo hi).
Proof.
  pose proof (zrange_sorted_by (fun x => x) lo hi (fun a b H => H)) as H.
  rewrite map_id in H.
  induction H as [|a l _ IH Ha]; constructor; [|assumption].
  intro Hin. rewrite Forall_forall in Ha. specialize (Ha a Hin). lia.
Qed.

Lemma bins_NoDup (bs : list Z) : NoDup (bins bs).
Proof.
  destruct bs as [|b r]; [constructor | apply zrange_NoDup].
Qed.

Lemma bins_cover (bs : list Z) (b : Z) : In b bs -> In b (bins bs).
Proof.
  intro H. destruct (bins_spec bs) as (lo & hi & -> & _ & _ & Hall).
  - intro E. subst. destruct H.
  - apply zrange_In. auto.
Qed.

Lemma sumZ_zero {A} (l : list A) : sumZ (map (fun _ => 0) l) = 0.
Proof.
  induction l as [|a l IH]; simpl; [reflexivity | exact IH].
Qed.

Lemma sumZ_add {A} (g h : A -> Z) (l : list A) :
  sumZ (map (fun a => g a + h a) l) = sumZ (map g l) + sumZ (map h l).
Proof.
  induction l as [|a l IH]; simpl; [reflexivity|].
  fold (sumZ (map (fun a => g a + h a) l)).
  fold (sumZ (map g l)). fold (sumZ (map h l)). lia.
Qed.

Lemma sumZ_indicator (ks : list Z) (b d : Z) :
  NoDup ks ->
  sumZ (map (fun k => if b =? k then d else 0) ks) =
  if existsb (Z.eqb b) ks then d else 0.
Proof.
  induction 1 as [|k ks Hk _ IH]; simpl; [reflexivity|].
  fold (sumZ (map (fun k0 => if b =? k0 then d else 0) ks)).
  rewrite IH. destruct (Z.eqb_spec b k) as [->|Hne]; simpl; [|reflexivity].
  destruct (existsb (Z.eqb k) ks) eqn:E; [|lia].
  apply existsb_exists in E. destruct E as (x & Hx & E).
  apply Z.eqb_eq in E. subst. contradiction.
Qed.

Lemma sumZ_bucket_total (f : Frequency) (s0 s : Series) (ks : list Z) :
  NoDup ks ->
  (forall t, In t (valid_stamps s0) -> In (bucket f t) ks) ->
  sumZ (map (bucket_total f s0 s) ks) = stage_total s0 s.
Proof.
  intro Hd. revert s. induction s0 as [|c s0 IH]; intros s Hin.
  - simpl. apply sumZ_zero.
  - destruct s as [|v s].
    + simpl. apply sumZ_zero.
    + cbn [bucket_total stage_total].
      rewrite (sumZ_add
        (fun k => match c with
                  | Timestamp t => if bucket f t =? k then dur0 v else 0
                  | _ => 0
                  end)
        (fun k => bucket_total f s0 s k)).
      rewrite IH.
      * f_equal. destruct c as [|t| | |]; try apply sumZ_zero.
        rewrite sumZ_indicator by assumption.
        assert (E : existsb (Z.eqb (bucket f t)) ks = true).
        { apply existsb_exists. exists (bucket f t). split.
          - apply Hin. now left.
          - apply Z.eqb_refl. }
        now rewrite E.
      * intros t Ht. apply Hin. destruct c; simpl; auto.
Qed.

(** X6: nothing is lost and nothing is counted twice: the values of a stage
    over all the rows of the table are the day counts of sums whose total
    is the sum of the durations of that stage over the rows of the input
    that carry a timestamp. *)
Theorem stage_totals_are_conserved (df : Frame) (names : list string)
  (f : Frequency) (on : string) (t : DataFrame) (name : string)
  (s0 s : Series) :
  calculate_cycle_flow_data df names f on = Ok (Some t) ->
  In name names ->
  getitem df on = Ok s0 ->
  getitem df (name ++ " duration")%string = Ok s ->
  exists totals,
    getitem (columns t) (name ++ " duration")%string =
      Ok (map to_days totals) /\
    List.length totals = List.length (index t) /\
    sumZ totals = stage_total s0 s.
Proof.
  intros H Hin Hs0 Hs. apply calculate_Some_inv in H.
  destruct H as (s0' & rest & Hs0' & Hr & _ & _ & _ & _ & ->).
  assert (s0' = s0) as -> by congruence.
  set (ks := bins (map (bucket f) (valid_stamps s0))).
  exists (map (bucket_total f s0 s) ks).
  split; [|split].
  - unfold period_table. cbn [columns]. fold ks.
    rewrite (getitem_map (fun s => map (fun k => to_days (bucket_total f s0 s k)) ks)).
    rewrite (getitem_list_getitem df (duration_cols names)); auto.
    + rewrite Hs. simpl. now rewrite map_map.
    + apply in_map_iff. eauto.
  - unfold period_table. cbn [index]. fold ks. now rewrite !length_map.
  - apply sumZ_bucket_total; [apply bins_NoDup|].
    intros ts Hts. apply bins_cover. now apply in_map.
Qed.

Lemma stage_totals_are_conserved_witness :
  exists totals,
    getitem [("Dev duration",
              [Float (1 # 1); Float (0 # 1); Float (2 # 1)])]%string
            "Dev duration"%string = Ok (map to_days totals) /\
    List.length totals =
      List.length [date 2020 1 31; date 2020 2 29; date 2020 3 31] /\
    sumZ totals = days 3.
Proof.
  apply (stage_totals_are_conserved gap_items ["Dev"]%string freq_1M
           "completed_timestamp"
           (mkDataFrame
              [date 2020 1 31; date 2020 2 29; date 2020 3 31]
              [("Dev duration",
                [Float (1 # 1); Float (0 # 1); Float (2 # 1)])]%string)
           "Dev"%string
           [Timestamp (date 2020 1 10); Timestamp (date 2020 3 5)]
           [Timedelta (days 1); Timedelta (days 2)]).
  - vm_compute. reflexivity.
  - simpl. left. reflexivity.
  - reflexivity.
  - reflexivity.
Defined.

Lemma bucket_total_nonneg (f : Frequency) (s0 s : Series) (k : Z) :
  Forall (fun v => 0 <= dur0 v) s -> 0 <= bucket_total f s0 s k.
Proof.
  intro H. revert s0. induction H as [|v s Hv _ IH]; intros s0.
  - destruct s0; simpl; lia.
  - destruct s0 as [|c s0]; simpl; [lia|].
    specialize (IH s0).
    destruct c as [|t| | |]; try lia.
    destruct (bucket f t =? k); lia.
Qed.

Lemma to_days_nonneg (d : Z) : 0 <= d -> is_nonneg_number (to_days d).
Proof.
  intro H. unfold to_days. eexists. split; [reflexivity|].
  rewrite Qred_correct. unfold Qle. simpl. lia.
Qed.

(** X7: when no duration of a stage is negative, no value of that stage in
    the table is negative. *)
Theorem nonnegative_durations_give_nonnegative_days (df : Frame)
  (names : list string) (f : Frequency) (on : string) (t : DataFrame)
  (name : string) (s col : Series) :
  calculate_cycle_flow_data df names f on = Ok (Some t) ->
  In name names ->
  getitem df (name ++ " duration")%string = Ok s ->
  Forall (fun v => 0 <= dur0 v) s ->
  getitem (columns t) (name ++ " duration")%string = Ok col ->
  Forall is_nonneg_number col.
Proof.
  intros H Hin Hs Hpos Hcol. apply calculate_Some_inv in H.
  destruct H as (s0 & rest & _ & Hr & _ & _ & _ & _ & ->).
  unfold period_table in Hcol. cbn [columns] in Hcol.
  rewrite (getitem_map (fun s =>
     map (fun k => to_days (bucket_total f s0 s k))
         (bins (map (bucket f) (valid_stamps s0))))) in Hcol.
  rewrite (getitem_list_getitem df (duration_cols names)) in Hcol; auto.
  2:{ apply in_map_iff. eauto. }
  rewrite Hs in Hcol. simpl in Hcol. injection Hcol as <-.
  apply Forall_forall. intros v Hv. apply in_map_iff in Hv.
  destruct Hv as (k & <- & _).
  apply to_days_nonneg. now apply bucket_total_nonneg.
Qed.

Lemma nonnegative_durations_give_nonnegative_days_witness :
  Forall is_nonneg_number [Float (1 # 1); Float (0 # 1); Float (2 # 1)].
Proof.
  apply (nonnegative_durations_give_nonnegative_days gap_items
           ["Dev"]%string freq_1M "completed_timestamp"
           (mkDataFrame
              [date 2020 1 31; date 2020 2 29; date 2020 3 31]
              [("Dev duration",
                [Float (1 # 1); Float (0 # 1); Float (2 # 1)])]%string)
           "Dev"%string
           [Timedelta (days 1); Timedelta (days 2)]).
  - vm_compute. reflexivity.
  - simpl. left. reflexivity.
  - reflexivity.
  - repeat constructor; vm_compute; discriminate.
  - reflexivity.
Defined.

Lemma bucket_total_single_bin (f : Frequency) (s0 s : Series) (k : Z) :
  (forall ts, In ts (valid_stamps s0) -> bucket f ts = k) ->
  bucket_total f s0 s k = stage_total s0 s.
Proof.
  revert s. induction s0 as [|c s0 IH]; intros s H; [reflexivity|].
  destruct s as [|v s]; [reflexivity|].
  simpl. rewrite IH.
  - destruct c as [|t| | |]; try reflexivity.
    rewrite (H t (or_introl eq_refl)), Z.eqb_refl. reflexivity.
  - intros ts Hts. apply H. destruct c; simpl; auto.
Qed.

(** X8: when all the bucketing timestamps fall in one bin, the table has a
    single row, labelled by that bin, and the row holds for each stage the
    total of its durations over the rows that carry a timestamp. *)
Theorem one_bin_gives_one_row_of_totals (df : Frame) (names : list string)
  (f : Frequency) (on : string) (t : DataFrame) (s0 : Series) (k : Z) :
  calculate_cycle_flow_data df names f on = Ok (Some t) ->
  getitem df on = Ok s0 ->
  (forall ts, In (Timestamp ts) s0 -> bucket f ts = k) ->
  index t = [label f k] /\
  forall name s,
    In name names ->
    getitem df (name ++ " duration")%string = Ok s ->
    getitem (columns t) (name ++ " duration")%string =
    Ok [to_days (stage_total s0 s)].
Proof.
  intros H Hs0 Hk. apply calculate_Some_inv in H.
  destruct H as (s0' & rest & Hs0' & Hr & _ & _ & Hv & _ & ->).
  assert (s0' = s0) as -> by congruence.
  assert (Hb : bins (map (bucket f) (valid_stamps s0)) = [k]).
  { destruct (bins_spec (map (bucket f) (valid_stamps s0)))
      as (lo & hi & -> & Hlo & Hhi & _).
    { intro E. apply map_eq_nil in E. contradiction. }
    assert (Hall : forall b, In b (map (bucket f) (valid_stamps s0)) -> b = k).
    { intros b Hb. apply in_map_iff in Hb. destruct Hb as (ts & <- & Hts).
      apply Hk. now apply valid_stamps_In. }
    rewrite (Hall lo Hlo), (Hall hi Hhi). unfold zrange.
    replace (k - k + 1) with 1 by lia. simpl. now rewrite Z.add_0_r. }
  unfold period_table. cbn [index columns]. rewrite Hb. split; [reflexivity|].
  intros name s Hin Hs.
  rewrite (getitem_map (fun s => map (fun k => to_days (bucket_total f s0 s k)) [k])).
  rewrite (getitem_list_getitem df (duration_cols names)); auto.
  2:{ apply in_map_iff. eauto. }
  rewrite Hs. simpl. rewrite bucket_total_single_bin; [reflexivity|].
  intros ts Hts. apply Hk. now apply valid_stamps_In.
Qed.

Lemma one_bin_gives_one_row_of_totals_witness :
  [date 2020 2 29] = [label freq_1M 24241] /\
  forall name s,
    In name ["Dev"; "QA"]%string ->
    getitem two_items (name ++ " duration")%string = Ok s ->
    getitem [ ("Dev duration", [Float (3 # 1)]);
              ("QA duration", [Float (1 # 2)]) ]%string
            (name ++ " duration")%string =
    Ok [to_days (stage_total
                   [Timestamp (date 2020 2 15); Timestamp (date 2020 2 20)]
                   s)].
Proof.
  apply (one_bin_gives_one_row_of_totals two_items ["Dev"; "QA"]%string
           freq_1M "completed_timestamp"
           (mkDataFrame [date 2020 2 29]
              [ ("Dev duration", [Float (3 # 1)]);
                ("QA duration", [Float (1 # 2)]) ]%string)
           [Timestamp (date 2020 2 15); Timestamp (date 2020 2 20)]
           24241).
  - vm_compute. reflexivity.
  - reflexivity.
  - intros ts [H|[H|[]]]; injection H as <-; vm_compute; reflexivity.
Defined.

(** ** The order of the rows *)

Lemma swap_at_map {A B} (g : A -> B) (i : nat) (l : list A) :
  swap_at i (map g l) = map g (swap_at i l).
Proof.
  revert i. induction l as [|a l IH]; intros [|i]; simpl; try reflexivity.
  - destruct l; reflexivity.
  - now rewrite IH.
Qed.

Lemma swap_at_length {A} (i : nat) (l : list A) :
  List.length (swap_at i l) = List.length l.
Proof.
  revert i. induction l as [|a l IH]; intros [|i]; simpl; try reflexivity.
  - destruct l; reflexivity.
  - now rewrite IH.
Qed.

Lemma swap_at_In {A} (i : nat) (l : list A) (x : A) :
  In x (swap_at i l) <-> In x l.
Proof.
  revert i. induction l as [|a l IH]; intros [|i]; simpl; try tauto.
  - destruct l; simpl; tauto.
  - rewrite IH. tauto.
Qed.

Lemma swap_opt_length {A} (j : option nat) (l : list A) :
  List.length (swap_opt j l) = List.length l.
Proof.
  destruct j; simpl; [apply swap_at_length | reflexivity].
Qed.

Lemma select_mask_swap {A} (m : list bool) (s : list A) (i : nat) :
  List.length s = List.length m ->
  select_mask (swap_at i m) (swap_at i s) =
  swap_opt (kept_swap m i) (select_mask m s).
Proof.
  revert s i. induction m as [|a m IH]; intros s i Hl.
  - destruct s; [|discriminate]. destruct i; reflexivity.
  - destruct s as [|x s]; [discriminate|]. simpl in Hl. injection Hl as Hl.
    destruct i as [|i].
    + destruct m as [|b m]; destruct s as [|y s]; try discriminate.
      * simpl. destruct a; reflexivity.
      * simpl. destruct a, b; reflexivity.
    + simpl. rewrite IH by assumption.
      destruct a; [|reflexivity].
      destruct (kept_swap m i); reflexivity.
Qed.

Lemma select_mask_length {A B} (m : list bool) (s : list A) (s' : list B) :
  List.length s = List.length m -> List.length s' = List.length m ->
  List.length (select_mask m s) = List.length (select_mask m s').
Proof.
  revert s s'. induction m as [|a m IH]; intros s s' H H'.
  - destruct s, s'; try discriminate. reflexivity.
  - destruct s as [|x s], s' as [|x' s']; try discriminate.
    simpl in H, H'. injection H as H. injection H' as H'.
    simpl. destruct a; simpl; auto.
Qed.

Lemma key_mask_length (s0 : Series) :
  List.length (key_mask s0) = List.length s0.
Proof.
  unfold key_mask, series_ne, fillna_series. now rewrite !length_map.
Qed.

Lemma masked_swap (s0 s : Series) (i : nat) :
  List.length s = List.length s0 ->
  masked (swap_at i s0) (swap_at i s) =
  swap_opt (kept_swap (key_mask s0) i) (masked s0 s).
Proof.
  intro Hl. unfold masked, key_mask, series_ne, fillna_series.
  rewrite <- !swap_at_map. apply select_mask_swap.
  now rewrite !length_map.
Qed.

Lemma masked_same_length (s0 s : Series) :
  List.length s = List.length s0 ->
  List.length (masked s0 s) = List.length (masked s0 s0).
Proof.
  intro Hl. unfold masked. apply select_mask_length.
  - unfold series_ne, fillna_series. now rewrite !length_map.
  - unfold series_ne, fillna_series. now rewrite !length_map.
Qed.

Lemma as_timestamps_swap (j : nat) (l : Series) :
  as_timestamps (swap_at j l) =
  (ts <- as_timestamps l ;; Ok (swap_at j ts)).
Proof.
  revert j. induction l as [|a l IH]; intros [|j]; try reflexivity.
  - destruct l as [|b l]; simpl.
    + destruct a; reflexivity.
    + destruct a, b; simpl; try reflexivity;
        destruct (as_timestamps l); reflexivity.
  - simpl. destruct a; try reflexivity.
    rewrite IH. destruct (as_timestamps l); reflexivity.
Qed.

Lemma as_timedeltas_swap (j : nat) (l : Series) :
  as_timedeltas (swap_at j l) =
  (ds <- as_timedeltas l ;; Ok (swap_at j ds)).
Proof.
  revert j. induction l as [|a l IH]; intros [|j]; try reflexivity.
  - destruct l as [|b l]; simpl.
    + destruct a; reflexivity.
    + destruct a, b; simpl; try reflexivity;
        destruct (as_timedeltas l); reflexivity.
  - simpl. destruct a; try reflexivity.
    rewrite IH. destruct (as_timedeltas l); reflexivity.
Qed.

Lemma as_timestamps_length (l : Series) (ts : list Z) :
  as_timestamps l = Ok ts -> List.length ts = List.length l.
Proof.
  revert ts. induction l as [|a l IH]; simpl; intros ts H.
  - now injection H as <-.
  - destruct a; try discriminate. inv_bind H. injection H as <-.
    simpl. f_equal. auto.
Qed.

Lemma as_timedeltas_length (l : Series) (ds : list Z) :
  as_timedeltas l = Ok ds -> List.length ds = List.length l.
Proof.
  revert ds. induction l as [|a l IH]; simpl; intros ds H.
  - now injection H as <-.
  - destruct a; try discriminate. inv_bind H. injection H as <-.
    simpl. f_equal. auto.
Qed.

Lemma bins_same_elements (l l' : list Z) :
  (forall x, In x l <-> In x l') -> bins l = bins l'.
Proof.
  intro H.
  destruct l as [|b r].
  { destruct l' as [|b' r']; [reflexivity|].
    exfalso. apply (H b'). now left. }
  destruct l' as [|b' r'].
  { exfalso. apply (H b). now left. }
  destruct (bins_spec (b :: r)) as (lo & hi & -> & Hlo & Hhi & Hall);
    [discriminate|].
  destruct (bins_spec (b' :: r')) as (lo' & hi' & -> & Hlo' & Hhi' & Hall');
    [discriminate|].
  pose proof (Hall lo' (proj2 (H lo') Hlo')).
  pose proof (Hall hi' (proj2 (H hi') Hhi')).
  pose proof (Hall' lo (proj1 (H lo) Hlo)).
  pose proof (Hall' hi (proj1 (H hi) Hhi)).
  f_equal; lia.
Qed.

Lemma bins_swap (j : nat) (bs : list Z) : bins (swap_at j bs) = bins bs.
Proof.
  apply bins_same_elements. intro x. apply swap_at_In.
Qed.

Lemma bin_sum_swap (j : nat) (bs ds : list Z) (k : Z) :
  List.length ds = List.length bs ->
  bin_sum (swap_at j bs) (swap_at j ds) k = bin_sum bs ds k.
Proof.
  revert j ds. induction bs as [|a bs IH]; intros j ds Hl.
  - destruct ds; [|discriminate]. destruct j; reflexivity.
  - destruct ds as [|x ds]; [discriminate|]. simpl in Hl. injection Hl as Hl.
    destruct j as [|j].
    + destruct bs as [|b bs]; destruct ds as [|y ds]; try discriminate.
      * reflexivity.
      * simpl. destruct (a =? k), (b =? k); lia.
    + simpl. now rewrite IH.
Qed.

Lemma filter_not_on_map (on : string) (g : Series -> Series) (df : Frame) :
  filter (fun c => negb (String.eqb (fst c) on))
         (map (fun c => (fst c, g (snd c))) df) =
  map (fun c => (fst c, g (snd c)))
      (filter (fun c => negb (String.eqb (fst c) on)) df).
Proof.
  induction df as [|c df IH]; simpl; [reflexivity|].
  destruct (String.eqb (fst c) on); simpl; now rewrite IH.
Qed.

Lemma resample_sum_swap (f : Frequency) (on : string) (j : nat)
  (K : Series) (cols : Frame) :
  Forall (fun c => List.length (snd c) = List.length K) cols ->
  resample_sum f on
    ((on, swap_at j K) :: map (fun c => (fst c, swap_at j (snd c))) cols) =
  resample_sum f on ((on, K) :: cols).
Proof.
  intro Hlen. unfold resample_sum.
  cbn [getitem]. rewrite String.eqb_refl. cbn [bind].
  rewrite as_timestamps_swap.
  destruct (as_timestamps K) as [ts|e] eqn:Ets; cbn [bind]; [|reflexivity].
  rewrite <- swap_at_map, bins_swap.
  cbn [filter fst]. rewrite String.eqb_refl. cbn [negb].
  rewrite filter_not_on_map.
  assert (Hf : Forall (fun c => List.length (snd c) = List.length K)
                 (filter (fun c => negb (String.eqb (fst c) on)) cols)).
  { apply Forall_forall. intros c Hc. apply filter_In in Hc.
    rewrite Forall_forall in Hlen. now apply Hlen. }
  set (L := filter (fun c => negb (String.eqb (fst c) on)) cols) in *.
  clearbody L.
  set (bs := map (bucket f) ts).
  assert (Hbs : List.length bs = List.length K).
  { unfold bs. rewrite length_map. now apply as_timestamps_length. }
  clearbody bs.
  assert (E : forall ks,
    mapM (fun c => ds <- as_timedeltas (snd c) ;;
                   Ok (fst c,
                       map (fun k => Timedelta (bin_sum (swap_at j bs) ds k))
                           ks))
         (map (fun c => (fst c, swap_at j (snd c))) L) =
    mapM (fun c => ds <- as_timedeltas (snd c) ;;
                   Ok (fst c, map (fun k => Timedelta (bin_sum bs ds k)) ks))
         L).
  { intro ks. induction Hf as [|c L Hc _ IH]; [reflexivity|].
    cbn [map mapM fst snd]. rewrite IH. rewrite as_timedeltas_swap.
    unfold Series in *.
    destruct (as_timedeltas (snd c)) as [ds|e] eqn:Eds; cbn [bind];
      [|reflexivity].
    replace (map (fun k => Timedelta (bin_sum (swap_at j bs) (swap_at j ds) k))
                 ks)
      with (map (fun k => Timedelta (bin_sum bs ds k)) ks); [reflexivity|].
    apply map_ext. intro k. f_equal. symmetry. apply bin_sum_swap.
    apply as_timedeltas_length in Eds. congruence. }
  now rewrite E.
Qed.

Lemma getitem_list_members (df : Frame) (ls : list string) (sel : Frame) :
  getitem_list df ls = Ok sel -> Forall (fun c => In c df) sel.
Proof.
  revert sel. induction ls as [|l ls IH]; intros sel H.
  - unfold getitem_list in H. simpl in H. injection H as <-. constructor.
  - apply getitem_list_cons in H. destruct H as (s & rest & -> & Hs & Hr).
    constructor; [now apply getitem_Ok_In | auto].
Qed.

(** X9: the order of the rows does not matter: exchanging two neighbouring
    rows of a table, in all its columns, leaves the result as it is, be it a
    table, [None] or an error. *)
Theorem row_order_is_irrelevant (n : nat) (df : Frame)
  (names : list string) (f : Frequency) (on : string) (i : nat) :
  rectangular n df ->
  calculate_cycle_flow_data (swap_rows i df) names f on =
  calculate_cycle_flow_data df names f on.
Proof.
  intro Hrect.
  destruct (getitem_list df (on :: duration_cols names)) as [sel|e] eqn:E.
  2:{ unfold calculate_cycle_flow_data, swap_rows.
      rewrite getitem_list_map, E. reflexivity. }
  pose proof (getitem_list_members _ _ _ E) as Hmem.
  apply getitem_list_cons in E. destruct E as (s0 & rest & -> & Hs & Hr).
  assert (Hlen : Forall (fun c => List.length (snd c) = List.length s0) rest).
  { unfold rectangular in Hrect. rewrite Forall_forall in Hrect.
    inversion Hmem as [|? ? H0 Hrest]; subst.
    apply Forall_forall. intros c Hc. rewrite Forall_forall in Hrest.
    rewrite (Hrect c (Hrest c Hc)). symmetry. exact (Hrect _ H0). }
  rewrite (calculate_selected df names f on s0 rest Hs Hr).
  rewrite (calculate_selected (swap_rows i df) names f on
             (swap_at i s0) (swap_rows i rest)).
  2:{ unfold swap_rows. rewrite getitem_map, Hs. reflexivity. }
  2:{ unfold swap_rows. rewrite getitem_list_map, Hr. reflexivity. }
  rewrite (masked_swap s0 s0 i eq_refl).
  rewrite swap_opt_length.
  destruct (Nat.eqb (List.length (masked s0 s0)) 0); [reflexivity|].
  assert (Ef : masked_frame (swap_at i s0) (swap_rows i rest) =
               map (fun c => (fst c,
                              swap_opt (kept_swap (key_mask s0) i) (snd c)))
                   (masked_frame s0 rest)).
  { unfold masked_frame, swap_rows. rewrite !map_map.
    apply map_ext_in. intros c Hc. cbn [fst snd]. f_equal.
    rewrite Forall_forall in Hlen. apply masked_swap. now apply Hlen. }
  rewrite Ef.
  destruct (kept_swap (key_mask s0) i) as [j|]; cbn [swap_opt].
  - rewrite resample_sum_swap; [reflexivity|].
    unfold masked_frame. apply Forall_forall. intros c Hc.
    apply in_map_iff in Hc. destruct Hc as (c' & <- & Hc'). cbn [snd].
    apply masked_same_length. rewrite Forall_forall in Hlen. now apply Hlen.
  - rewrite (map_ext (fun c : string * Series => (fst c, snd c)) (fun c => c)).
    + now rewrite map_id.
    + intros [? ?]. reflexivity.
Qed.

Lemma row_order_is_irrelevant_witness :
  calculate_cycle_flow_data (swap_rows 0 two_items) ["Dev"; "QA"]%string
                            freq_1M "completed_timestamp" =
  calculate_cycle_flow_data two_items ["Dev"; "QA"]%string freq_1M
                            "completed_timestamp".
Proof.
  apply (row_order_is_irrelevant 2 two_items).
  repeat constructor.
Defined.

(** ** The calculator and the chart *)

(** X10: [run] leaves out the first and the last entry of the configured
    cycle (backlog and done): a table it returns has the duration columns of
    the entries in between, in their order. *)
Theorem run_leaves_out_backlog_and_done (cycle_data : Frame)
  (first last : string) (middle : list string) (t : DataFrame) :
  run cycle_data (first :: middle ++ [last]) = Ok (Some t) ->
  map fst (columns t) = duration_cols middle.
Proof.
  unfold run, active_cycles. cbn [tl]. rewrite removelast_last.
  intro H. apply calculate_Some_inv in H.
  destruct H as (s0 & rest & _ & Hr & _ & _ & _ & _ & ->).
  unfold period_table. cbn [columns]. rewrite map_map. cbn [fst].
  eapply getitem_list_labels; eauto.
Qed.

Lemma run_leaves_out_backlog_and_done_witness :
  map fst [ ("Dev duration", [Float (3 # 1)]);
            ("QA duration", [Float (1 # 2)]) ]%string =
  duration_cols ["Dev"; "QA"]%string.
Proof.
  apply (run_leaves_out_backlog_and_done two_items
           "Backlog"%string "Done"%string ["Dev"; "QA"]%string
           (mkDataFrame [date 2020 2 29]
              [ ("Dev duration", [Float (3 # 1)]);
                ("QA duration", [Float (1 # 2)]) ]%string)).
  vm_compute. reflexivity.
Defined.

(** X11: [write] never saves a chart.  Whenever it returns, it has made no
    call that plots or saves; and with an output file configured and a
    table as the stored result, the test [if data:] raises [ValueError]
    before [write_chart] is reached. *)
Theorem write_never_saves_a_chart (cycle_flow_chart : option string)
  (data : option DataFrame) :
  (forall events,
      write cycle_flow_chart data = Ok events ->
      exists msg, events = [LogDebug msg] \/ events = [LogInfo msg]) /\
  (forall t,
      setting_is_true cycle_flow_chart = true ->
      data = Some t ->
      write cycle_flow_chart data = Raise ValueError).
Proof.
  split.
  - intros events H. unfold write in H.
    destruct (setting_is_true cycle_flow_chart).
    + destruct data as [t|]; simpl in H; [discriminate|].
      injection H as <-. eauto.
    + injection H as <-. eauto.
  - intros t Hs ->. unfold write. rewrite Hs. reflexivity.
Qed.


